(** * Discovery: single-flight coordination and cache coherency

    A shallow embedding of [sdk/src/platform/Discovery.ts].

    The class is asynchronous: every method is an [async] function, and the
    properties of interest are about what happens between two suspension
    points.  Each method is therefore embedded as the sequence of its
    synchronous segments: the segment that runs at the call, and one
    continuation per [await].  A segment is a state-passing function on a
    [world] (the fields of the [Discovery] instance, the contents of the
    cache, the clock, the promises allocated so far and the log of the calls
    made to the collaborators).  A small labelled step function resumes
    suspended activations in any order, which over-approximates the job queue
    of the JavaScript runtime.

    Conventions.  Values are untyped, as at run time: the documents are
    objects, that is finite maps from property names to values.  Numbers are
    integers (seconds, milliseconds) or [NaN], and the conversion of a string
    to a number is a parameter.  The transport is the environment: a request
    is logged and answered by a step of its own.  The cache and the timer are
    modelled from their description.  Emitting an event is logged; the
    listeners are not part of the embedding. *)

From stdpp Require Import gmap strings list fin_maps pretty.
From Stdlib Require Import ZArith Lia.

#[local] Open Scope Z_scope.
#[local] Set Warnings "-register-all".

(** ** JavaScript values *)

Module JS.

(** Failures: the [Error] thrown by [init], the [TypeError]s of the runtime,
    and rejections produced by a collaborator (transport, body parser). *)
Inductive error : Type :=
| Error (message : string)
| TypeError (message : string)
| Rejection (reason : string).

(** Values.  Numbers are integers (second and millisecond counts) or [NaN];
    an object is the finite map of its own properties.  A [Response] is the
    object resolved by the transport: besides its own properties it carries
    the result of parsing its body and its headers. *)
Inductive jsval : Type :=
| JUndefined
| JNull
| JBool (b : bool)
| JNum (n : Z)
| JNaN
| JStr (s : string)
| JObj (props : gmap string jsval)
| JResponse (props : gmap string jsval) (json : jsval + error)
            (headers : gmap string string).

(** The result of an arithmetic expression: [None] is [NaN]. *)
Definition number : Type := option Z.

Definition of_number (n : number) : jsval :=
  match n with
  | Some z => JNum z
  | None => JNaN
  end.

(** [ToBoolean]. *)
Definition truthy (v : jsval) : bool :=
  match v with
  | JUndefined | JNull | JNaN => false
  | JBool b => b
  | JNum n => negb (n =? 0)
  | JStr s => match s with EmptyString => false | String _ _ => true end
  | JObj _ | JResponse _ _ _ => true
  end.

(** [a || b]. *)
Definition or_else (a b : jsval) : jsval := if truthy a then a else b.

(** [v.name], for the property names of the discovery documents (none of
    them is a property of a primitive wrapper or of [Response.prototype]). *)
Definition get_prop (v : jsval) (name : string) : jsval + error :=
  match v with
  | JUndefined => inr (TypeError "Cannot read properties of undefined")
  | JNull => inr (TypeError "Cannot read properties of null")
  | JObj props | JResponse props _ _ => inl (default JUndefined (props !! name))
  | JBool _ | JNum _ | JNaN | JStr _ => inl JUndefined
  end.

(** [v.name = x] in strict-mode code (the file is an ES module). *)
Definition set_prop (v : jsval) (name : string) (x : jsval) : jsval + error :=
  match v with
  | JUndefined => inr (TypeError "Cannot set properties of undefined")
  | JNull => inr (TypeError "Cannot set properties of null")
  | JObj props => inl (JObj (<[name := x]> props))
  | JResponse props json headers => inl (JResponse (<[name := x]> props) json headers)
  | JBool _ | JNum _ | JNaN | JStr _ => inr (TypeError "Cannot create property")
  end.

(** The own enumerable properties copied by [{...v}]: those of an object,
    the indexed characters of a string, nothing for the other values. *)
Fixpoint string_props (i : nat) (s : string) : gmap string jsval :=
  match s with
  | EmptyString => ∅
  | String c s' => <[pretty i := JStr (String c EmptyString)]> (string_props (S i) s')
  end.

Definition own_props (v : jsval) : gmap string jsval :=
  match v with
  | JObj props | JResponse props _ _ => props
  | JStr s => string_props 0 s
  | _ => ∅
  end.

Section Numbers.

(** The conversion of a string to a number is the runtime's; the embedding
    is parametric in it. *)
Variable StringToNumber : string → number.

(** [ToNumber].  Objects are plain (parsed JSON), hence [NaN]. *)
Definition ToNumber (v : jsval) : number :=
  match v with
  | JUndefined | JNaN => None
  | JNull => Some 0
  | JBool b => Some (if b then 1 else 0)
  | JNum n => Some n
  | JStr s => StringToNumber s
  | JObj _ | JResponse _ _ _ => None
  end.

End Numbers.

Definition num_add (a b : number) : number :=
  match a, b with Some x, Some y => Some (x + y) | _, _ => None end.
Definition num_sub (a b : number) : number :=
  match a, b with Some x, Some y => Some (x - y) | _, _ => None end.
Definition num_mul (a b : number) : number :=
  match a, b with Some x, Some y => Some (x * y) | _, _ => None end.

(** [a > b]: false as soon as an operand is [NaN]. *)
Definition num_gt (a b : number) : bool :=
  match a, b with Some x, Some y => y <? x | _, _ => false end.

End JS.
Export JS.

(** ** Promises, activations and the world *)

(** A promise is named by its allocation index. *)
Definition promise : Type := nat.

Inductive outcome : Type :=
| Resolved (v : jsval)
| Rejected (e : error).

(** [export enum events], lines 93-96. *)
Inductive events : Type :=
| initialized
| externalDataUpdated.

Definition event_name (ev : events) : string :=
  match ev with
  | initialized => "initialized"
  | externalDataUpdated => "external-data-updated"
  end.

(** The suspension points of the class: one constructor per [await], named
    after the method and carrying the locals that are live across it. *)
Inductive kont : Type :=
| K_init
| K__init_1
| K__init_2
| K_fetchInitialData
| K__fetchInitialData_1
| K__fetchInitialData_2
| K__fetchInitialData_3 (initialData : jsval)
| K__fetchExternalData_1
| K__fetchExternalData_2 (response : jsval)
| K_fetchExternalData_1
| K_fetchExternalData_2 (externalData : jsval)
| K__refreshExternalData_1
| K__refreshExternalData_2
| K__refreshExternalData_3
| K_refreshExternalData
| K_initialData
| K_externalData
| K__setInitialData
| K__setExternalData
| K_removeExternalData
| K_removeInitialData
| K_externalDataExpired.

(** The state of a promise: settled; the promise of an activation of an async
    method suspended at [k] on the promise [on]; the pending promise of a
    transport request; the pending promise of a timer. *)
Inductive pstate : Type :=
| Settled (o : outcome)
| Suspended (k : kont) (on : promise)
| Transport
| Timer (deadline : Z).

(** The calls made to the collaborators, in the order they are made. *)
Inductive effect : Type :=
| FetchGet (url query options : jsval) (p : promise)
| CacheGet (key : string)
| CacheSet (key : string) (v : jsval)
| CacheRemove (key : string)
| Emit (ev : events) (payload : jsval)
| Delay (ms : Z) (p : promise).

(** The private fields of the instance (lines 106-123) and the runtime
    around it.  The two forms of an empty memo cell, [undefined] and [null],
    are both [None]. *)
Record world : Type := World {
  _cache : gmap string jsval;
  _initialCacheId : string;
  _externalCacheId : string;
  _initialEndpoint : string;
  _clientId : jsval;
  _initialPromise : option promise;
  _initialFetchPromise : option promise;
  _externalFetchPromise : option promise;
  _externalRefreshPromise : option promise;
  _initialized : bool;
  _refreshHandicapMs : Z;
  _refreshDelayMs : Z;
  now : Z;
  promises : list pstate;
  log : list effect
}.

Definition set__cache (c : gmap string jsval) (w : world) : world :=
  World c (_initialCacheId w) (_externalCacheId w) (_initialEndpoint w)
    (_clientId w) (_initialPromise w) (_initialFetchPromise w)
    (_externalFetchPromise w) (_externalRefreshPromise w) (_initialized w)
    (_refreshHandicapMs w) (_refreshDelayMs w) (now w) (promises w) (log w).

Definition set__initialPromise (c : option promise) (w : world) : world :=
  World (_cache w) (_initialCacheId w) (_externalCacheId w) (_initialEndpoint w)
    (_clientId w) c (_initialFetchPromise w)
    (_externalFetchPromise w) (_externalRefreshPromise w) (_initialized w)
    (_refreshHandicapMs w) (_refreshDelayMs w) (now w) (promises w) (log w).

Definition set__initialFetchPromise (c : option promise) (w : world) : world :=
  World (_cache w) (_initialCacheId w) (_externalCacheId w) (_initialEndpoint w)
    (_clientId w) (_initialPromise w) c
    (_externalFetchPromise w) (_externalRefreshPromise w) (_initialized w)
    (_refreshHandicapMs w) (_refreshDelayMs w) (now w) (promises w) (log w).

Definition set__externalFetchPromise (c : option promise) (w : world) : world :=
  World (_cache w) (_initialCacheId w) (_externalCacheId w) (_initialEndpoint w)
    (_clientId w) (_initialPromise w) (_initialFetchPromise w)
    c (_externalRefreshPromise w) (_initialized w)
    (_refreshHandicapMs w) (_refreshDelayMs w) (now w) (promises w) (log w).

Definition set__externalRefreshPromise (c : option promise) (w : world) : world :=
  World (_cache w) (_initialCacheId w) (_externalCacheId w) (_initialEndpoint w)
    (_clientId w) (_initialPromise w) (_initialFetchPromise w)
    (_externalFetchPromise w) c (_initialized w)
    (_refreshHandicapMs w) (_refreshDelayMs w) (now w) (promises w) (log w).

Definition set__initialized (b : bool) (w : world) : world :=
  World (_cache w) (_initialCacheId w) (_externalCacheId w) (_initialEndpoint w)
    (_clientId w) (_initialPromise w) (_initialFetchPromise w)
    (_externalFetchPromise w) (_externalRefreshPromise w) b
    (_refreshHandicapMs w) (_refreshDelayMs w) (now w) (promises w) (log w).

Definition set_now (t : Z) (w : world) : world :=
  World (_cache w) (_initialCacheId w) (_externalCacheId w) (_initialEndpoint w)
    (_clientId w) (_initialPromise w) (_initialFetchPromise w)
    (_externalFetchPromise w) (_externalRefreshPromise w) (_initialized w)
    (_refreshHandicapMs w) (_refreshDelayMs w) t (promises w) (log w).

Definition set_promises (ps : list pstate) (w : world) : world :=
  World (_cache w) (_initialCacheId w) (_externalCacheId w) (_initialEndpoint w)
    (_clientId w) (_initialPromise w) (_initialFetchPromise w)
    (_externalFetchPromise w) (_externalRefreshPromise w) (_initialized w)
    (_refreshHandicapMs w) (_refreshDelayMs w) (now w) ps (log w).

Definition set_log (l : list effect) (w : world) : world :=
  World (_cache w) (_initialCacheId w) (_externalCacheId w) (_initialEndpoint w)
    (_clientId w) (_initialPromise w) (_initialFetchPromise w)
    (_externalFetchPromise w) (_externalRefreshPromise w) (_initialized w)
    (_refreshHandicapMs w) (_refreshDelayMs w) (now w) (promises w) l.

(** ** The monad of a synchronous segment *)

Definition M (A : Type) : Type := world → A * world.

Definition ret {A} (a : A) : M A := fun w => (a, w).
Definition bind {A B} (m : M A) (f : A → M B) : M B :=
  fun w => let (a, w') := m w in f a w'.
Definition gets {A} (f : world → A) : M A := fun w => (f w, w).
Definition modify (f : world → world) : M unit := fun w => (tt, f w).

Notation "'let*' x ':=' m 'in' k" := (bind m (fun x => k))
  (at level 10, x name, m at level 200, k at level 200).
Notation "m ';;' k" := (bind m (fun _ => k))
  (at level 100, k at level 200, right associativity).

(** How a segment ends: at an [await], at a [return], or by a [throw] that
    nothing in the method catches. *)
Inductive completion : Type :=
| Await (on : promise) (k : kont)
| Return (v : jsval)
| Throw (e : error).

Definition seg : Type := M completion.

(** A new promise in the given state. *)
Definition alloc (st : pstate) : M promise :=
  fun w => (length (promises w), set_promises (promises w ++ [st]) w).

Definition record (e : effect) : M unit :=
  modify (fun w => set_log (log w ++ [e]) w).

Definition entry_of (c : completion) : pstate :=
  match c with
  | Await on k => Suspended k on
  | Return v => Settled (Resolved v)
  | Throw e => Settled (Rejected e)
  end.

(** Calling an async method runs its first segment and hands back the
    promise of the activation. *)
Definition call (body : seg) : M promise :=
  let* c := body in alloc (entry_of c).

(** [await c] where [c] is the content of a memo cell: a value that is not a
    promise is awaited as an already resolved one. *)
Definition promise_of (c : option promise) : M promise :=
  match c with
  | Some p => ret p
  | None => alloc (Settled (Resolved JNull))
  end.

Definition is_set (c : option promise) : bool :=
  match c with Some _ => true | None => false end.

(** ** The collaborators *)

(** [Date.now()]. *)
Definition Date_now : M Z := gets now.

(** [this.emit(ev, payload)]: the delivery to the listeners is the event
    channel's; the coordinator's part is the emission. *)
Definition emit (ev : events) (payload : jsval) : M unit := record (Emit ev payload).

(** [this._fetchGet(url, query, options)]: the request is recorded and its
    promise is settled later by the transport. *)
Definition _fetchGet (url query options : jsval) : M promise :=
  let* p := alloc Transport in
  record (FetchGet url query options p);;
  ret p.

(** [response.json()] and [response.headers.get(name)]. *)
Definition Response_json (response : jsval) : M (promise + error) :=
  match response with
  | JResponse _ json _ =>
      let* p := alloc (Settled (match json with
                                | inl v => Resolved v
                                | inr e => Rejected e
                                end)) in
      ret (inl p)
  | JUndefined => ret (inr (TypeError "Cannot read properties of undefined"))
  | JNull => ret (inr (TypeError "Cannot read properties of null"))
  | _ => ret (inr (TypeError "response.json is not a function"))
  end.

Definition Response_headers_get (response : jsval) (name : string) : jsval :=
  match response with
  | JResponse _ _ headers =>
      match headers !! name with Some s => JStr s | None => JNull end
  | _ => JUndefined
  end.

(** Modelled from the spec: the cache store ([../core/Cache], not part of the
    sources at hand), an asynchronous key-value store with
    [getItem(key) -> value|undefined], [setItem(key, value)] and
    [removeItem(key)]; a write fully replaces the entry.  The operation takes
    effect at the call and its promise is already fulfilled. *)
Definition Cache_getItem (key : string) : M promise :=
  record (CacheGet key);;
  let* c := gets _cache in
  alloc (Settled (Resolved (default JUndefined (c !! key)))).

Definition Cache_setItem (key : string) (v : jsval) : M promise :=
  record (CacheSet key v);;
  modify (fun w => set__cache (<[key := v]> (_cache w)) w);;
  alloc (Settled (Resolved JUndefined)).

Definition Cache_removeItem (key : string) : M promise :=
  record (CacheRemove key);;
  modify (fun w => set__cache (delete key (_cache w)) w);;
  alloc (Settled (Resolved JUndefined)).

(** Modelled from the spec: [delay] ([./utils], not part of the sources at
    hand), the settling delay: a promise fulfilled once [ms] milliseconds
    have elapsed. *)
Definition delay (ms : Z) : M promise :=
  let* t := Date_now in
  let* p := alloc (Timer (t + ms)) in
  record (Delay ms p);;
  ret p.

(** ** The methods of [Discovery], segment by segment *)

Section Discovery.

Variable StringToNumber : string → number.

(** *** [initialData], lines 238-241, and [externalData], lines 243-246 *)

Definition initialData : seg :=
  let* key := gets _initialCacheId in
  let* p := Cache_getItem key in
  ret (Await p K_initialData).

Definition initialData_1 (o : outcome) : seg :=
  match o with
  | Resolved data => ret (Return (or_else data JNull))
  | Rejected e => ret (Throw e)
  end.

Definition externalData : seg :=
  let* key := gets _externalCacheId in
  let* p := Cache_getItem key in
  ret (Await p K_externalData).

Definition externalData_1 (o : outcome) : seg :=
  match o with
  | Resolved data => ret (Return (or_else data JNull))
  | Rejected e => ret (Throw e)
  end.

(** *** [_setInitialData], lines 248-250 *)

Definition _setInitialData (newData : jsval) : seg :=
  let* key := gets _initialCacheId in
  let* p := Cache_setItem key newData in
  ret (Await p K__setInitialData).

Definition _setInitialData_1 (o : outcome) : seg :=
  match o with
  | Resolved _ => ret (Return JUndefined)
  | Rejected e => ret (Throw e)
  end.

(** *** [_setExternalData], lines 252-261 *)

Definition _setExternalData (newData : jsval) : seg :=
  match get_prop newData "expiresIn" with
  | inr e => ret (Throw e)
  | inl expiresIn =>
      let* expireTime :=
        if truthy expiresIn then
          let* t := Date_now in
          ret (of_number (num_add (Some t)
                 (num_mul (ToNumber StringToNumber expiresIn) (Some 1000))))
        else ret JUndefined in
      let* key := gets _externalCacheId in
      let* p := Cache_setItem key
                  (JObj (<["expireTime" := expireTime]> (own_props newData))) in
      ret (Await p K__setExternalData)
  end.

Definition _setExternalData_1 (o : outcome) : seg :=
  match o with
  | Resolved _ => ret (Return JUndefined)
  | Rejected e => ret (Throw e)
  end.

(** *** [removeExternalData], lines 263-265, and [removeInitialData],
    lines 267-269 *)

Definition removeExternalData : seg :=
  let* key := gets _externalCacheId in
  let* p := Cache_removeItem key in
  ret (Await p K_removeExternalData).

Definition removeExternalData_1 (o : outcome) : seg :=
  match o with
  | Resolved _ => ret (Return JUndefined)
  | Rejected e => ret (Throw e)
  end.

Definition removeInitialData : seg :=
  let* key := gets _initialCacheId in
  let* p := Cache_removeItem key in
  ret (Await p K_removeInitialData).

Definition removeInitialData_1 (o : outcome) : seg :=
  match o with
  | Resolved _ => ret (Return JUndefined)
  | Rejected e => ret (Throw e)
  end.

(** *** [_fetchInitialData], lines 185-190 *)

Definition _fetchInitialData : seg :=
  let* endpoint := gets _initialEndpoint in
  let* clientId := gets _clientId in
  let* p := _fetchGet (JStr endpoint)
              (JObj {[ "clientId" := clientId ]})
              (JObj {[ "skipAuthCheck" := JBool true ]}) in
  ret (Await p K__fetchInitialData_1).

Definition _fetchInitialData_1 (o : outcome) : seg :=
  match o with
  | Resolved response =>
      let* json := Response_json response in
      match json with
      | inl p => ret (Await p K__fetchInitialData_2)
      | inr e => ret (Throw e)
      end
  | Rejected e => ret (Throw e)
  end.

Definition _fetchInitialData_2 (o : outcome) : seg :=
  match o with
  | Resolved initialData =>
      let* p := call (_setInitialData initialData) in
      ret (Await p (K__fetchInitialData_3 initialData))
  | Rejected e => ret (Throw e)
  end.

Definition _fetchInitialData_3 (initialData : jsval) (o : outcome) : seg :=
  match o with
  | Resolved _ => ret (Return initialData)
  | Rejected e => ret (Throw e)
  end.

(** *** [fetchInitialData], lines 176-183 *)

Definition fetchInitialData : seg :=
  let* cell := gets _initialFetchPromise in
  (if negb (is_set cell) then
     let* p := call _fetchInitialData in
     modify (set__initialFetchPromise (Some p))
   else ret tt);;
  let* cell := gets _initialFetchPromise in
  let* p := promise_of cell in
  ret (Await p K_fetchInitialData).

(** There is no [try] around the [await]: a rejection leaves the method
    before the cell is reset. *)
Definition fetchInitialData_1 (o : outcome) : seg :=
  match o with
  | Resolved initialData =>
      modify (set__initialFetchPromise None);;
      ret (Return initialData)
  | Rejected e => ret (Throw e)
  end.

(** *** [_init], lines 164-174 *)

Definition _init : seg :=
  let* p := call initialData in
  ret (Await p K__init_1).

Definition _init_1 (o : outcome) : seg :=
  match o with
  | Resolved initialData =>
      if truthy initialData then
        modify (set__initialized true);;
        emit initialized initialData;;
        ret (Return JUndefined)
      else
        let* p := call fetchInitialData in
        ret (Await p K__init_2)
  | Rejected e => ret (Throw e)
  end.

Definition _init_2 (o : outcome) : seg :=
  match o with
  | Resolved initialData =>
      modify (set__initialized true);;
      emit initialized initialData;;
      ret (Return JUndefined)
  | Rejected e => ret (Throw e)
  end.

(** *** [init], lines 148-162 *)

Definition init : seg :=
  let* clientId := gets _clientId in
  if negb (truthy clientId) then
    ret (Throw (Error "Client Id is required for discovery"))
  else
    let* cell := gets _initialPromise in
    (if negb (is_set cell) then
       let* p := call _init in
       modify (set__initialPromise (Some p))
     else ret tt);;
    let* cell := gets _initialPromise in
    let* p := promise_of cell in
    ret (Await p K_init).

Definition init_1 (o : outcome) : seg :=
  match o with
  | Resolved _ =>
      modify (set__initialPromise None);;
      ret (Return JUndefined)
  | Rejected e =>
      modify (set__initialPromise None);;
      ret (Throw e)
  end.

(** *** [_fetchExternalData], lines 192-200 *)

Definition _fetchExternalData (externalEndoint : jsval) : seg :=
  let* p := _fetchGet externalEndoint JNull
              (JObj {[ "skipDiscoveryCheck" := JBool true ]}) in
  ret (Await p K__fetchExternalData_1).

Definition _fetchExternalData_1 (o : outcome) : seg :=
  match o with
  | Resolved response =>
      let* json := Response_json response in
      match json with
      | inl p => ret (Await p (K__fetchExternalData_2 response))
      | inr e => ret (Throw e)
      end
  | Rejected e => ret (Throw e)
  end.

Definition _fetchExternalData_2 (response : jsval) (o : outcome) : seg :=
  match o with
  | Resolved externalData =>
      let discoveryTag := Response_headers_get response "discovery-tag" in
      if truthy discoveryTag then
        match set_prop externalData "tag" discoveryTag with
        | inl externalData' => ret (Return externalData')
        | inr e => ret (Throw e)
        end
      else ret (Return externalData)
  | Rejected e => ret (Throw e)
  end.

(** *** [fetchExternalData], lines 202-216 *)

Definition fetchExternalData (externalEndoint : jsval) : seg :=
  let* cell := gets _externalFetchPromise in
  (if negb (is_set cell) then
     let* p := call (_fetchExternalData externalEndoint) in
     modify (set__externalFetchPromise (Some p))
   else ret tt);;
  let* cell := gets _externalFetchPromise in
  let* p := promise_of cell in
  ret (Await p K_fetchExternalData_1).

Definition fetchExternalData_1 (o : outcome) : seg :=
  match o with
  | Resolved externalData =>
      let* p := call (_setExternalData externalData) in
      ret (Await p (K_fetchExternalData_2 externalData))
  | Rejected e =>
      modify (set__externalFetchPromise None);;
      ret (Throw e)
  end.

Definition fetchExternalData_2 (externalData : jsval) (o : outcome) : seg :=
  match o with
  | Resolved _ =>
      modify (set__externalFetchPromise None);;
      emit externalDataUpdated externalData;;
      ret (Return externalData)
  | Rejected e =>
      modify (set__externalFetchPromise None);;
      ret (Throw e)
  end.

(** *** [_refreshExternalData], lines 218-223 *)

Definition _refreshExternalData : seg :=
  let* ms := gets _refreshDelayMs in
  let* p := delay ms in
  ret (Await p K__refreshExternalData_1).

Definition _refreshExternalData_1 (o : outcome) : seg :=
  match o with
  | Resolved _ =>
      let* p := call externalData in
      ret (Await p K__refreshExternalData_2)
  | Rejected e => ret (Throw e)
  end.

Definition _refreshExternalData_2 (o : outcome) : seg :=
  match o with
  | Resolved oldExternalData =>
      match get_prop oldExternalData "discoveryApi" with
      | inr e => ret (Throw e)
      | inl discoveryApi =>
          match get_prop discoveryApi "externalUri" with
          | inr e => ret (Throw e)
          | inl externalEndoint =>
              let* p := call (fetchExternalData externalEndoint) in
              ret (Await p K__refreshExternalData_3)
          end
      end
  | Rejected e => ret (Throw e)
  end.

Definition _refreshExternalData_3 (o : outcome) : seg :=
  match o with
  | Resolved _ => ret (Return JUndefined)
  | Rejected e => ret (Throw e)
  end.

(** *** [refreshExternalData], lines 225-236 *)

Definition refreshExternalData : seg :=
  let* cell := gets _externalRefreshPromise in
  (if negb (is_set cell) then
     let* p := call _refreshExternalData in
     modify (set__externalRefreshPromise (Some p))
   else ret tt);;
  let* cell := gets _externalRefreshPromise in
  let* p := promise_of cell in
  ret (Await p K_refreshExternalData).

Definition refreshExternalData_1 (o : outcome) : seg :=
  match o with
  | Resolved _ =>
      modify (set__externalRefreshPromise None);;
      ret (Return JUndefined)
  | Rejected e =>
      modify (set__externalRefreshPromise None);;
      ret (Throw e)
  end.

(** *** [externalDataExpired], lines 274-280 *)

Definition externalDataExpired : seg :=
  let* p := call externalData in
  ret (Await p K_externalDataExpired).

Definition externalDataExpired_1 (o : outcome) : seg :=
  match o with
  | Resolved data =>
      if negb (truthy data) then ret (Return (JBool true))
      else
        match get_prop data "expireTime" with
        | inr e => ret (Throw e)
        | inl expireTime =>
            let* handicap := gets _refreshHandicapMs in
            let* t := Date_now in
            ret (Return (JBool
                   (num_gt (num_sub (ToNumber StringToNumber expireTime)
                              (Some handicap))
                      (Some t))))
        end
  | Rejected e => ret (Throw e)
  end.

(** *** [get initialized], lines 282-284 *)

Definition get_initialized (w : world) : bool := _initialized w.

(** ** Running the coordinator *)

(** The continuation behind each suspension point. *)
Definition continue (k : kont) : outcome → seg :=
  match k with
  | K_init => init_1
  | K__init_1 => _init_1
  | K__init_2 => _init_2
  | K_fetchInitialData => fetchInitialData_1
  | K__fetchInitialData_1 => _fetchInitialData_1
  | K__fetchInitialData_2 => _fetchInitialData_2
  | K__fetchInitialData_3 initialData => _fetchInitialData_3 initialData
  | K__fetchExternalData_1 => _fetchExternalData_1
  | K__fetchExternalData_2 response => _fetchExternalData_2 response
  | K_fetchExternalData_1 => fetchExternalData_1
  | K_fetchExternalData_2 externalData => fetchExternalData_2 externalData
  | K__refreshExternalData_1 => _refreshExternalData_1
  | K__refreshExternalData_2 => _refreshExternalData_2
  | K__refreshExternalData_3 => _refreshExternalData_3
  | K_refreshExternalData => refreshExternalData_1
  | K_initialData => initialData_1
  | K_externalData => externalData_1
  | K__setInitialData => _setInitialData_1
  | K__setExternalData => _setExternalData_1
  | K_removeExternalData => removeExternalData_1
  | K_removeInitialData => removeInitialData_1
  | K_externalDataExpired => externalDataExpired_1
  end.

(** The public methods a client of the class can call. *)
Inductive method : Type :=
| M_init
| M_fetchInitialData
| M_fetchExternalData (externalEndoint : string)
| M_refreshExternalData
| M_initialData
| M_externalData
| M_removeExternalData
| M_removeInitialData
| M_externalDataExpired.

Definition body (m : method) : seg :=
  match m with
  | M_init => init
  | M_fetchInitialData => fetchInitialData
  | M_fetchExternalData externalEndoint => fetchExternalData (JStr externalEndoint)
  | M_refreshExternalData => refreshExternalData
  | M_initialData => initialData
  | M_externalData => externalData
  | M_removeExternalData => removeExternalData
  | M_removeInitialData => removeInitialData
  | M_externalDataExpired => externalDataExpired
  end.

(** What can happen next: a client calls a method; a suspended activation
    whose awaited promise is settled runs its next segment; the transport
    settles a pending request; time passes; a timer that is due fires. *)
Inductive label : Type :=
| Invoke (m : method)
| Resume (p : promise)
| Respond (p : promise) (o : outcome)
| Elapse (ms : Z)
| Fire (p : promise).

Definition settle (p : promise) (st : pstate) (w : world) : world :=
  set_promises (<[p := st]> (promises w)) w.

Definition step (l : label) (w : world) : option world :=
  match l with
  | Invoke m => Some (call (body m) w).2
  | Resume p =>
      match promises w !! p with
      | Some (Suspended k on) =>
          match promises w !! on with
          | Some (Settled o) =>
              let (c, w') := continue k o w in
              Some (settle p (entry_of c) w')
          | _ => None
          end
      | _ => None
      end
  | Respond p o =>
      match promises w !! p with
      | Some Transport => Some (settle p (Settled o) w)
      | _ => None
      end
  | Elapse ms =>
      if 0 <=? ms then Some (set_now (now w + ms) w) else None
  | Fire p =>
      match promises w !! p with
      | Some (Timer deadline) =>
          if deadline <=? now w
          then Some (settle p (Settled (Resolved JUndefined)) w)
          else None
      | _ => None
      end
  end.

Fixpoint run (ls : list label) (w : world) : option world :=
  match ls with
  | [] => Some w
  | l :: ls' =>
      match step l w with
      | Some w' => run ls' w'
      | None => None
      end
  end.

(** *** The constructor, lines 125-146 *)

(** [DiscoveryOptions], lines 7-15; the transport is the environment of
    the steps and the cache is given by its contents. *)
Record DiscoveryOptions : Type := {
  cache : gmap string jsval;
  cacheId : string;
  initialEndpoint : string;
  clientId : jsval;
  refreshHandicapMs : option Z;
  refreshDelayMs : option Z
}.

Definition DEFAULT_RENEW_HANDICAP_MS : Z := 60 * 1000.

(** The instance created at time [t], as it is when the assignments of the
    constructor are done. *)
Definition new_instance (o : DiscoveryOptions) (t : Z) : world :=
  {| _cache := cache o;
     _initialCacheId := cacheId o +:+ "-initial";
     _externalCacheId := cacheId o +:+ "-external";
     _initialEndpoint := initialEndpoint o;
     _clientId := clientId o;
     _initialPromise := None;
     _initialFetchPromise := None;
     _externalFetchPromise := None;
     _externalRefreshPromise := None;
     _initialized := false;
     _refreshHandicapMs := default DEFAULT_RENEW_HANDICAP_MS (refreshHandicapMs o);
     _refreshDelayMs := default 100 (refreshDelayMs o);
     now := t;
     promises := [];
     log := [] |}.

(** The last statement of the constructor calls [init] and drops the
    promise. *)
Definition constructor (o : DiscoveryOptions) (t : Z) : world :=
  (call init (new_instance o t)).2.

End Discovery.

(** ** The vocabulary of the statements *)

(** The [k]-th promise allocated from the world [w] on. *)
Definition new_promise (w : world) (k : nat) : promise :=
  (length (promises w) + k)%nat.

(** The transport requests among a list of effects. *)
Definition is_request (e : effect) : bool :=
  match e with FetchGet _ _ _ _ => true | _ => false end.

Definition requests (l : list effect) : list effect := List.filter is_request l.

(** *** Scenarios *)

(** No scenario below uses a string where a number is expected; the
    conversion is instantiated with the constant [NaN]. *)
Definition no_numeric_string : string → number := fun _ => None.

(** A client configured with the defaults, over a given cache. *)
Definition options (c : gmap string jsval) (id : jsval) : DiscoveryOptions :=
  {| cache := c; cacheId := "rc"; initialEndpoint := "https://discovery/initial";
     clientId := id; refreshHandicapMs := None; refreshDelayMs := None |}.

(** An initial document and an external document, reduced to a few fields. *)
Definition initial_document : jsval :=
  JObj (<["version" := JStr "1.0"]>
        {[ "discoveryApi" :=
             JObj {[ "defaultExternalUri" := JStr "https://discovery/external" ]} ]}).

Definition external_document (expiresIn : jsval) : gmap string jsval :=
  <["version" := JStr "1.0"]>
  (<["expiresIn" := expiresIn]>
   {[ "discoveryApi" :=
        JObj (<["externalUri" := JStr "https://disc2.example.com"]>
              {[ "initialUri" := JStr "https://discovery/initial" ]}) ]}).

(** The external document as [_setExternalData] stored it at time [0]. *)
Definition cached_external_document : gmap string jsval :=
  <["expireTime" := JNum 3600000]> (external_document (JNum 3600)).

(** A client created at time [t] over a cache that holds that document. *)
Definition client_with_external_document (t : Z) : world :=
  constructor (options {[ "rc-external" := JObj cached_external_document ]} (JStr "my-app")) t.

(** The payloads emitted for the event [ev] among a list of effects. *)
Definition emitted (ev : events) (l : list effect) : list jsval :=
  flat_map (fun e =>
    match e, ev with
    | Emit initialized v, initialized => [v]
    | Emit externalDataUpdated v, externalDataUpdated => [v]
    | _, _ => []
    end) l.

(** A client created at time [t] over an empty cache. *)
Definition client_without_cache (t : Z) : world :=
  constructor (options ∅ (JStr "my-app")) t.

(** The response of the transport to an external discovery request. *)
Definition external_response : jsval :=
  JResponse ∅ (inl (JObj (external_document (JNum 3600)))) ∅.

(** An instance without client identifier, and one over a cache that holds
    an initial document, both before the constructor calls [init]. *)
Definition unconfigured_instance : world :=
  new_instance (options ∅ (JStr "")) 0.

Definition instance_with_initial_document : world :=
  new_instance (options {[ "rc-initial" := initial_document ]} (JStr "my-app")) 0.

(** A client whose call of [fetchExternalData] waits (promise 6) for a fetch
    (promise 5) that the transport has answered. *)
Definition client_after_external_fetch : world :=
  default (client_without_cache 0)
    (run no_numeric_string
       [Invoke (M_fetchExternalData "https://discovery/external");
        Respond 4%nat (Resolved external_response);
        Resume 5%nat; Resume 5%nat]
       (client_without_cache 0)).

(** The three operations of the class that are deduplicated through a memo
    cell and reach the transport (lines 176-236). *)
Inductive operation : Type :=
| Op_fetchInitialData
| Op_fetchExternalData (externalEndoint : string)
| Op_refreshExternalData.

Definition method_of (op : operation) : method :=
  match op with
  | Op_fetchInitialData => M_fetchInitialData
  | Op_fetchExternalData externalEndoint => M_fetchExternalData externalEndoint
  | Op_refreshExternalData => M_refreshExternalData
  end.

(** The memo cell of an operation. *)
Definition cell_of (op : operation) : world → option promise :=
  match op with
  | Op_fetchInitialData => _initialFetchPromise
  | Op_fetchExternalData _ => _externalFetchPromise
  | Op_refreshExternalData => _externalRefreshPromise
  end.

(** Where a caller of the operation waits for the shared attempt, and where
    the attempt itself first waits. *)
Definition caller_kont (op : operation) : kont :=
  match op with
  | Op_fetchInitialData => K_fetchInitialData
  | Op_fetchExternalData _ => K_fetchExternalData_1
  | Op_refreshExternalData => K_refreshExternalData
  end.

Definition attempt_kont (op : operation) : kont :=
  match op with
  | Op_fetchInitialData => K__fetchInitialData_1
  | Op_fetchExternalData _ => K__fetchExternalData_1
  | Op_refreshExternalData => K__refreshExternalData_1
  end.

(** How an attempt starts in the world [w]: the one call it makes to a
    collaborator, and the pending promise it gets back. *)
Definition attempt_start (op : operation) (w : world) : effect * pstate :=
  match op with
  | Op_fetchInitialData =>
      (FetchGet (JStr (_initialEndpoint w)) (JObj {[ "clientId" := _clientId w ]})
         (JObj {[ "skipAuthCheck" := JBool true ]}) (new_promise w 0), Transport)
  | Op_fetchExternalData externalEndoint =>
      (FetchGet (JStr externalEndoint) JNull
         (JObj {[ "skipDiscoveryCheck" := JBool true ]}) (new_promise w 0), Transport)
  | Op_refreshExternalData =>
      (Delay (_refreshDelayMs w) (new_promise w 0), Timer (now w + _refreshDelayMs w))
  end.





(** The value [_setExternalData] stores for [newData] at time [t]. *)
Definition stored_external (f : string → number) (t : Z) (newData : jsval) : jsval :=
  JObj (<["expireTime" :=
            match get_prop newData "expiresIn" with
            | inl expiresIn =>
                if truthy expiresIn
                then of_number (num_add (Some t) (num_mul (ToNumber f expiresIn) (Some 1000)))
                else JUndefined
            | inr _ => JUndefined
            end]> (own_props newData)).

(** *** The vocabulary of the further properties *)

(** What the constructor fixes: the two keys, the endpoint, the client
    identifier, the handicap and the delay (lines 136-143). *)
Definition config (w : world) : string * string * string * jsval * Z * Z :=
  (_initialCacheId w, _externalCacheId w, _initialEndpoint w, _clientId w,
   _refreshHandicapMs w, _refreshDelayMs w).

(** The two shapes of a request, lines 186 and 193. *)
Definition discovery_request (w : world) (e : effect) : Prop :=
  match e with
  | FetchGet url query options _ =>
      (url = JStr (_initialEndpoint w)
       ∧ query = JObj {[ "clientId" := _clientId w ]}
       ∧ options = JObj {[ "skipAuthCheck" := JBool true ]})
      ∨ (query = JNull ∧ options = JObj {[ "skipDiscoveryCheck" := JBool true ]})
  | _ => True
  end.

(** The document the external fetch resolves with: the parsed body, with
    the tag of the response when the header is there and not empty. *)
Definition tagged (headers : gmap string string) (body : gmap string jsval)
  : gmap string jsval :=
  match headers !! "discovery-tag" with
  | Some (String a s) => <["tag" := JStr (String a s)]> body
  | _ => body
  end.

(** An instance over an empty cache, before the constructor calls [init]. *)
Definition instance_without_cache : world :=
  new_instance (options ∅ (JStr "my-app")) 0.

(** A client whose bootstrap (promise 2) has completed from the cache while
    the call of [init] (promise 3) has not resumed yet. *)
Definition client_before_init_returns : world :=
  default instance_with_initial_document
    (run no_numeric_string
       [Invoke M_init; Resume 1%nat; Resume 2%nat]
       instance_with_initial_document).

(** A client whose bootstrap has failed: the transport rejected the initial
    request (promise 4) and every activation has run to its end. *)
Definition client_after_failed_bootstrap : world :=
  default (client_without_cache 0)
    (run no_numeric_string
       [Resume 1%nat; Resume 2%nat;
        Respond 4%nat (Rejected (Rejection "network down"));
        Resume 5%nat; Resume 6%nat; Resume 2%nat; Resume 3%nat]
       (client_without_cache 0)).

(** ** Reasoning about runs *)

Section Heap.

Lemma heap_lookup_at (l l' : list pstate) (i : nat) :
  (l ++ l') !! (length l + i)%nat = l' !! i.
Proof. rewrite lookup_app_r by lia. f_equal. lia. Qed.

Lemma heap_lookup_0 (l l' : list pstate) :
  (l ++ l') !! length l = l' !! 0%nat.
Proof. rewrite <- (Nat.add_0_r (length l)) at 1. apply heap_lookup_at. Qed.

Lemma heap_insert_at (l l' : list pstate) (i : nat) (x : pstate) :
  <[(length l + i)%nat := x]> (l ++ l') = l ++ <[i := x]> l'.
Proof. apply insert_app_r. Qed.

Lemma heap_insert_0 (l l' : list pstate) (x : pstate) :
  <[length l := x]> (l ++ l') = l ++ <[0%nat := x]> l'.
Proof. rewrite <- (Nat.add_0_r (length l)) at 1. apply insert_app_r. Qed.

Lemma heap_length (l l' : list pstate) :
  length (l ++ l') = (length l + length l')%nat.
Proof. apply length_app. Qed.

Lemma heap_lookup_old (l l' : list pstate) (i : nat) (x : pstate) :
  l !! i = Some x → (l ++ l') !! i = Some x.
Proof. apply lookup_app_l_Some. Qed.

End Heap.

(** The same, once an entry [c] of the old part has been overwritten. *)
Section HeapUpdated.

Context (ps l : list pstate) (c : nat) (x : pstate) (Hc : (c < length ps)%nat).

Lemma heap_upd_lookup_at (i : nat) :
  (<[c := x]> (ps ++ l)) !! (length ps + i)%nat = l !! i.
Proof. rewrite list_lookup_insert_ne by lia. apply heap_lookup_at. Qed.

Lemma heap_upd_lookup_0 : (<[c := x]> (ps ++ l)) !! length ps = l !! 0%nat.
Proof. rewrite list_lookup_insert_ne by lia. apply heap_lookup_0. Qed.

Lemma heap_upd_lookup_old : (<[c := x]> (ps ++ l)) !! c = Some x.
Proof. apply list_lookup_insert_eq. rewrite length_app. lia. Qed.

Lemma heap_upd_insert_at (i : nat) (y : pstate) :
  <[(length ps + i)%nat := y]> (<[c := x]> (ps ++ l)) = <[c := x]> (ps ++ <[i := y]> l).
Proof. rewrite list_insert_insert_ne by lia. rewrite heap_insert_at. reflexivity. Qed.

Lemma heap_upd_insert_0 (y : pstate) :
  <[length ps := y]> (<[c := x]> (ps ++ l)) = <[c := x]> (ps ++ <[0%nat := y]> l).
Proof. rewrite list_insert_insert_ne by lia. rewrite heap_insert_0. reflexivity. Qed.

Lemma heap_upd_insert_old (y : pstate) :
  <[c := y]> (<[c := x]> (ps ++ l)) = <[c := y]> (ps ++ l).
Proof. apply list_insert_insert_eq. Qed.

Lemma heap_upd_app (l' : list pstate) :
  <[c := x]> (ps ++ l) ++ l' = <[c := x]> (ps ++ l ++ l').
Proof. rewrite app_assoc. symmetry. apply insert_app_l. rewrite length_app. lia. Qed.

Lemma heap_upd_length : length (<[c := x]> (ps ++ l)) = (length ps + length l)%nat.
Proof. rewrite length_insert. apply length_app. Qed.

End HeapUpdated.

Ltac unfold_world :=
  cbv beta iota delta
    [settle set__cache set__initialPromise set__initialFetchPromise
     set__externalFetchPromise set__externalRefreshPromise set__initialized
     set_now set_promises set_log new_promise].

Arguments run _ _ _ : simpl never.

Lemma run_nil (f : string → number) (w : world) : run f [] w = Some w.
Proof. reflexivity. Qed.

Lemma run_cons (f : string → number) (l : label) (ls : list label) (w : world) :
  run f (l :: ls) w
  = match step f l w with Some w' => run f ls w' | None => None end.
Proof. reflexivity. Qed.

(** A run is observed through a function of its final world. *)
Lemma run_observed {A} (f : string → number) (ls : list label) (w : world)
    (obs : world → A) (a : A) :
  obs <$> run f ls w = Some a → ∃ w', run f ls w = Some w' ∧ obs w' = a.
Proof.
  destruct (run f ls w) as [w'|]; [|discriminate].
  intros [= <-]. exists w'. split; reflexivity.
Qed.

Ltac by_observation obs a :=
  lazymatch goal with
  | |- ∃ w', run ?f ?ls ?w = Some w' ∧ _ =>
      let Hr := fresh "Hr" in
      let H := fresh "H" in
      let E := fresh "E" in
      assert (H : obs <$> run f ls w = Some a) by (vm_compute; reflexivity);
      destruct (run_observed f ls w obs a H) as (w' & Hr & E);
      clear H; exists w'; split; [exact Hr|];
      cbv beta in E; injection E; clear E; intros;
      repeat split; assumption
  end.

(** Symbolic execution of segments on a world whose heap is [ps ++ news]. *)
Ltac compute_world :=
  repeat (progress
    (cbv beta iota delta
       [bind ret gets modify call alloc record emit promise_of Date_now
        _fetchGet Response_json Cache_getItem Cache_setItem Cache_removeItem
        delay body continue
        initialData initialData_1 externalData externalData_1
        _setInitialData _setInitialData_1 _setExternalData _setExternalData_1
        removeExternalData removeExternalData_1
        removeInitialData removeInitialData_1
        _fetchInitialData _fetchInitialData_1 _fetchInitialData_2
        _fetchInitialData_3 fetchInitialData fetchInitialData_1
        _init _init_1 _init_2 init init_1
        _fetchExternalData _fetchExternalData_1 _fetchExternalData_2
        fetchExternalData fetchExternalData_1 fetchExternalData_2
        _refreshExternalData _refreshExternalData_1 _refreshExternalData_2
        _refreshExternalData_3 refreshExternalData refreshExternalData_1
        externalDataExpired externalDataExpired_1];
     unfold_world; cbn)).

Ltac heap :=
  compute_world;
  repeat (first
    [ rewrite <- !app_assoc
    | rewrite !heap_length
    | rewrite !heap_lookup_at
    | rewrite !heap_lookup_0
    | rewrite !heap_insert_at
    | rewrite !heap_insert_0
    | rewrite <- !Nat.add_assoc ];
    compute_world).

(** Runs a trace label by label; [tac] rewrites with what is known of the
    values read on the way, before they are branched on. *)
Ltac exec_with tac :=
  repeat (rewrite run_cons; heap; repeat (progress tac; heap)); rewrite ?run_nil.

Ltac exec := exec_with idtac.

(** [heap] for a heap of which the old entry [c], with [H : c < length ps],
    has been overwritten. *)
Ltac heap_upd H :=
  heap;
  repeat (first
    [ rewrite !(heap_upd_app _ _ _ _ H)
    | rewrite !(heap_upd_length _ _ _ _)
    | rewrite !(heap_upd_lookup_at _ _ _ _ H)
    | rewrite !(heap_upd_lookup_0 _ _ _ _ H)
    | rewrite !(heap_upd_lookup_old _ _ _ _ H)
    | rewrite !(heap_upd_insert_at _ _ _ _ H)
    | rewrite !(heap_upd_insert_0 _ _ _ _ H)
    | rewrite !heap_upd_insert_old ];
    heap).

(** Case analysis on whatever a segment branches on, innermost first. *)
Ltac break :=
  repeat (compute_world;
    match goal with
    | |- context [match ?x with _ => _ end] => is_var x; destruct x eqn:?
    | |- context [if ?b then _ else _] =>
        lazymatch b with
        | context [match _ with _ => _ end] => fail
        | context [if _ then _ else _] => fail
        | _ => destruct b eqn:?
        end
    | |- context [match ?x with _ => _ end] =>
        lazymatch x with
        | context [match _ with _ => _ end] => fail
        | context [if _ then _ else _] => fail
        | _ => destruct x eqn:?
        end
    end).

(** The two ways a step is accounted for below: what it leaves alone, and
    what it adds to the log. *)
Ltac frame_of_step :=
  intros [= <-]; cbn; (split; [reflexivity|]);
  intros k H1 H2; rewrite ?lookup_insert_ne, ?lookup_delete_ne by congruence;
  reflexivity.

Ltac requests_of_step :=
  intros [= <-]; cbn; rewrite <- ?app_assoc; cbn [app];
  first
    [ eexists; split; [reflexivity|];
      repeat (apply List.Forall_cons;
              [ cbn; first [ exact I
                           | left; repeat split; reflexivity
                           | right; repeat split; reflexivity ] |]);
      apply List.Forall_nil
    | exists []; rewrite app_nil_r; split; [reflexivity|constructor] ].

(** ** Properties *)

Section Properties.

Variable StringToNumber : string → number.

Abbreviation step := (step StringToNumber).
Abbreviation run := (run StringToNumber).

(** *** What a single step can do *)

Lemma run_app (ls ls' : list label) (w : world) :
  run (ls ++ ls') w = match run ls w with Some w' => run ls' w' | None => None end.
Proof.
  revert w. induction ls as [|l ls IH]; intros w; [reflexivity|].
  cbn [app]. rewrite !run_cons. destruct (step l w); [apply IH|reflexivity].
Qed.

(** No step resets the flag. *)
Lemma step_initialized_mono (l : label) (w w' : world) :
  step l w = Some w' → _initialized w = true → _initialized w' = true.
Proof.
  destruct w as [c ik ek ep cid c1 c2 c3 c4 ini h d t ps lg].
  intros Hs Hi. cbn in Hi. subst ini.
  destruct l as [m|p|p o|ms|p]; cbn in Hs.
  - destruct m; revert Hs; break; intros [= <-]; reflexivity.
  - revert Hs.
    destruct (ps !! p) as [[o|k on| |]|] eqn:Ep; cbn; try (intros; discriminate).
    destruct (ps !! on) as [[o| | |]|] eqn:Eon; cbn; try (intros; discriminate).
    destruct k; destruct o; cbn [continue]; break; intros [= <-]; reflexivity.
  - revert Hs; break; try discriminate; intros [= <-]; reflexivity.
  - revert Hs; break; try discriminate; intros [= <-]; reflexivity.
  - revert Hs; break; try discriminate; intros [= <-]; reflexivity.
Qed.

(** The flag is set by the step in which an activation of [_init] returns,
    and by no other. *)
Lemma step_initialized_flip (l : label) (w w' : world) :
  step l w = Some w' → _initialized w = false → _initialized w' = true →
  ∃ p k on initialData,
    l = Resume p ∧ (k = K__init_1 ∨ k = K__init_2)
    ∧ promises w !! p = Some (Suspended k on)
    ∧ promises w !! on = Some (Settled (Resolved initialData))
    ∧ promises w' !! p = Some (Settled (Resolved JUndefined))
    ∧ log w' = log w ++ [Emit initialized initialData].
Proof.
  destruct w as [c ik ek ep cid c1 c2 c3 c4 ini h d t ps lg].
  intros Hs Hi. cbn in Hi. subst ini.
  destruct l as [m|p|p o|ms|p]; cbn in Hs.
  - destruct m; revert Hs; break; intros [= <-]; cbn; discriminate.
  - revert Hs.
    destruct (ps !! p) as [[o|k on| |]|] eqn:Ep; cbn; try (intros; discriminate).
    destruct (ps !! on) as [[o| | |]|] eqn:Eon; cbn; try (intros; discriminate).
    assert (Hp : (p < length ps)%nat) by (eapply lookup_lt_Some; eassumption).
    destruct k; destruct o; cbn [continue]; break; intros [= <-]; cbn;
      try discriminate; intros _.
    + exists p, K__init_1, on, v. cbn.
      rewrite list_lookup_insert_eq by assumption. repeat split; auto.
    + exists p, K__init_2, on, v. cbn.
      rewrite list_lookup_insert_eq by assumption. repeat split; auto.
  - revert Hs; break; try discriminate; intros [= <-]; cbn; discriminate.
  - revert Hs; break; try discriminate; intros [= <-]; cbn; discriminate.
  - revert Hs; break; try discriminate; intros [= <-]; cbn; discriminate.
Qed.

(** [initialized] is emitted by the steps that set the flag, and by no
    other; along a run the flag is set if and only if the event has been
    emitted. *)
Lemma step_emits_initialized (l : label) (w w' : world) :
  step l w = Some w' →
  (emitted initialized (log w') = emitted initialized (log w)
   ∧ _initialized w' = _initialized w)
  ∨ (∃ d, emitted initialized (log w') = emitted initialized (log w) ++ [d]
       ∧ _initialized w' = true).
Proof.
  destruct w as [c ik ek ep cid c1 c2 c3 c4 ini h d t ps lg]. intros Hs.
  destruct l as [m|p|p o|ms|p]; cbn in Hs.
  - left. destruct m; revert Hs; break; intros [= <-]; cbn;
      rewrite ?flat_map_app; cbn; rewrite ?app_nil_r; split; reflexivity.
  - revert Hs.
    destruct (ps !! p) as [[o|k on| |]|] eqn:Ep; cbn; try (intros; discriminate).
    destruct (ps !! on) as [[o| | |]|] eqn:Eon; cbn; try (intros; discriminate).
    destruct k; destruct o; cbn [continue]; break; intros [= <-]; cbn;
      rewrite ?flat_map_app; cbn; rewrite ?app_nil_r;
      try (left; split; reflexivity); right; eexists; split; reflexivity.
  - left; revert Hs; break; try discriminate; intros [= <-]; split; reflexivity.
  - left; revert Hs; break; try discriminate; intros [= <-]; split; reflexivity.
  - left; revert Hs; break; try discriminate; intros [= <-]; split; reflexivity.
Qed.

Lemma run_initialized_iff_emitted (ls : list label) : ∀ w w',
  run ls w = Some w' →
  (_initialized w = true ↔ emitted initialized (log w) ≠ []) →
  (_initialized w' = true ↔ emitted initialized (log w') ≠ []).
Proof.
  induction ls as [|l ls IH]; intros w w'.
  - rewrite run_nil. intros [= <-]. trivial.
  - rewrite run_cons. destruct (step l w) as [w1|] eqn:E; [|discriminate].
    intros Hr Hw. apply (IH w1 w' Hr).
    destruct (step_emits_initialized l w w1 E) as [[-> ->]|(d & -> & ->)]; [exact Hw|].
    split; [|reflexivity]. intros _. destruct (emitted initialized (log w)); discriminate.
Qed.
(** An activation of [_init] that returns has set the flag. *)
Lemma init_return_sets_initialized (w w' : world) (p : promise) (k : kont) (on : promise) :
  k = K__init_1 ∨ k = K__init_2 →
  promises w !! p = Some (Suspended k on) →
  step (Resume p) w = Some w' →
  (∃ v, promises w' !! p = Some (Settled (Resolved v))) →
  _initialized w' = true.
Proof.
  destruct w as [c ik ek ep cid c1 c2 c3 c4 ini h d t ps lg]. cbn.
  intros Hk Ep. rewrite Ep.
  assert (Hp : (p < length ps)%nat) by (eapply lookup_lt_Some; eassumption).
  destruct (ps !! on) as [[o| | |]|] eqn:Eon; try discriminate.
  destruct Hk as [-> | ->]; destruct o; break; intros [= <-] [v' Hv]; cbn in *;
    try reflexivity.
  all: revert Hv; heap;
    rewrite ?insert_app_l, ?lookup_app_l, ?list_lookup_insert_eq
      by (rewrite ?length_insert; assumption);
    discriminate.
Qed.

(** [external-data-updated] is emitted by the step in which an activation of
    [fetchExternalData] returns, and by no other. *)
Lemma step_emits_update (l : label) (w w' : world) :
  step l w = Some w' →
  emitted externalDataUpdated (log w') = emitted externalDataUpdated (log w)
  ∨ ∃ c on externalData v,
      l = Resume c
      ∧ promises w !! c = Some (Suspended (K_fetchExternalData_2 externalData) on)
      ∧ promises w !! on = Some (Settled (Resolved v))
      ∧ promises w' !! c = Some (Settled (Resolved externalData))
      ∧ emitted externalDataUpdated (log w')
        = emitted externalDataUpdated (log w) ++ [externalData].
Proof.
  destruct w as [c ik ek ep cid c1 c2 c3 c4 ini h d t ps lg]. intros Hs.
  destruct l as [m|p|p o|ms|p]; cbn in Hs.
  - left. destruct m; revert Hs; break; intros [= <-]; cbn;
      rewrite ?flat_map_app; cbn; rewrite ?app_nil_r; reflexivity.
  - revert Hs.
    destruct (ps !! p) as [[o|k on| |]|] eqn:Ep; cbn; try (intros; discriminate).
    destruct (ps !! on) as [[o| | |]|] eqn:Eon; cbn; try (intros; discriminate).
    assert (Hp : (p < length ps)%nat) by (eapply lookup_lt_Some; eassumption).
    destruct k; destruct o; cbn [continue]; break; intros [= <-]; cbn;
      rewrite ?flat_map_app; cbn; rewrite ?app_nil_r; try (left; reflexivity).
    right.
    match goal with
    | H : ps !! p = Some (Suspended (K_fetchExternalData_2 ?x) _) |- _ =>
        exists p, on, x, v
    end.
    rewrite list_lookup_insert_eq by assumption. repeat split; auto.
  - left; revert Hs; break; try discriminate; intros [= <-]; reflexivity.
  - left; revert Hs; break; try discriminate; intros [= <-]; reflexivity.
  - left; revert Hs; break; try discriminate; intros [= <-]; reflexivity.
Qed.

(** *** Joining an attempt in flight *)





Lemma first_call (op : operation) (w : world) :
  cell_of op w = None →
  ∃ w1, step (Invoke (method_of op)) w = Some w1
    ∧ log w1 = log w ++ [(attempt_start op w).1]
    ∧ promises w1
      = promises w ++ [(attempt_start op w).2;
                       Suspended (attempt_kont op) (new_promise w 0);
                       Suspended (caller_kont op) (new_promise w 1)]
    ∧ cell_of op w1 = Some (new_promise w 1).
Proof.
  destruct w as [c ik ek ep cid c1 c2 c3 c4 ini h d t ps lg].
  destruct op; cbn; intros ->; eexists; (split; [heap; reflexivity|]); heap;
    rewrite ?Nat.add_0_r; repeat split; reflexivity.
Qed.

(** *** A caller of [fetchExternalData] after the fetch *)

Lemma fetchExternalData_caller_completes (u : world) (c attempt : promise)
    (v expiresIn : jsval) :
  promises u !! c = Some (Suspended K_fetchExternalData_1 attempt) →
  promises u !! attempt = Some (Settled (Resolved v)) →
  get_prop v "expiresIn" = inl expiresIn →
  ∃ u1 u2,
    step (Resume c) u = Some u1
    ∧ log u1 = log u ++ [CacheSet (_externalCacheId u)
                           (stored_external StringToNumber (now u) v)]
    ∧ _cache u1 = <[_externalCacheId u := stored_external StringToNumber (now u) v]>
                    (_cache u)
    ∧ promises u1 !! c = Some (Suspended (K_fetchExternalData_2 v) (new_promise u 1))
    ∧ run [Resume (new_promise u 1); Resume c] u1 = Some u2
    ∧ log u2 = log u1 ++ [Emit externalDataUpdated v]
    ∧ promises u2 !! c = Some (Settled (Resolved v))
    ∧ _externalFetchPromise u2 = None
    ∧ _cache u2 = _cache u1.
Proof.
  destruct u as [ch ik ek ep cid c1 c2 c3 c4 ini h d t ps lg]. cbn [promises].
  intros Hc Ha G.
  assert (Hlt : (c < length ps)%nat) by (eapply lookup_lt_Some; eassumption).
  unfold stored_external. rewrite G.
  destruct (truthy expiresIn) eqn:T.
  - do 2 eexists. split.
    { cbn [step promises]. rewrite Hc, Ha. heap. rewrite G. heap. rewrite T. heap.
      reflexivity. }
    heap. split; [reflexivity|]. split; [reflexivity|].
    split; [heap_upd Hlt; reflexivity|].
    split; [exec_with ltac:(heap_upd Hlt); reflexivity|].
    heap_upd Hlt. repeat split; reflexivity.
  - do 2 eexists. split.
    { cbn [step promises]. rewrite Hc, Ha. heap. rewrite G. heap. rewrite T. heap.
      reflexivity. }
    heap. split; [reflexivity|]. split; [reflexivity|].
    split; [heap_upd Hlt; reflexivity|].
    split; [exec_with ltac:(heap_upd Hlt); reflexivity|].
    heap_upd Hlt. repeat split; reflexivity.
Qed.

(** C10.  [initialData()] and [externalData()] resolve with the value the
    cache returned when it is truthy and with [null] when it is falsy
    (so never with [undefined]); the cache is left as it was and the only
    call to a collaborator is the one read. *)
Theorem accessors_normalise_to_null (w : world) :
  (let data := default JUndefined (_cache w !! _initialCacheId w) in
   ∃ w', run [Invoke M_initialData; Resume (new_promise w 1)] w = Some w'
     ∧ promises w' !! new_promise w 1
       = Some (Settled (Resolved (if truthy data then data else JNull)))
     ∧ (if truthy data then data else JNull) ≠ JUndefined
     ∧ _cache w' = _cache w
     ∧ log w' = log w ++ [CacheGet (_initialCacheId w)])
  ∧
  (let data := default JUndefined (_cache w !! _externalCacheId w) in
   ∃ w', run [Invoke M_externalData; Resume (new_promise w 1)] w = Some w'
     ∧ promises w' !! new_promise w 1
       = Some (Settled (Resolved (if truthy data then data else JNull)))
     ∧ (if truthy data then data else JNull) ≠ JUndefined
     ∧ _cache w' = _cache w
     ∧ log w' = log w ++ [CacheGet (_externalCacheId w)]).
Proof.
  destruct w as [c ik ek ep cid c1 c2 c3 c4 ini h d t ps lg].
  split; cbn zeta; eexists; (split; [exec; reflexivity|]); heap;
    (repeat split; try reflexivity);
    unfold or_else;
    generalize (default JUndefined (c !! ik)) (default JUndefined (c !! ek));
    intros [] []; cbn; try discriminate;
    repeat match goal with |- context [if ?b then _ else _] => destruct b end;
    try discriminate; reflexivity.
Qed.

(** C6.  With a falsy client identifier (empty, [undefined], [null]) a call
    to [init()] does one thing only: it hands back a promise rejected with
    the configuration error.  The cache, the log of collaborator calls and
    the memo cells are as before.  (With [w := new_instance o t] this is the
    call made by the constructor.) *)
Theorem init_without_clientId (w : world) :
  truthy (_clientId w) = false →
  step (Invoke M_init) w
  = Some (set_promises
            (promises w
             ++ [Settled (Rejected (Error "Client Id is required for discovery"))]) w)
  ∧ ∀ w', step (Invoke M_init) w = Some w' →
      log w' = log w ∧ _cache w' = _cache w
      ∧ _initialPromise w' = _initialPromise w
      ∧ _initialFetchPromise w' = _initialFetchPromise w
      ∧ _initialized w' = _initialized w
      ∧ promises w' !! new_promise w 0
        = Some (Settled (Rejected (Error "Client Id is required for discovery"))).
Proof.
  intros Hid.
  assert (E : step (Invoke M_init) w
              = Some (set_promises
                        (promises w
                         ++ [Settled (Rejected (Error "Client Id is required for discovery"))]) w)).
  { cbn. unfold call, bind, init, gets. cbn. rewrite Hid. reflexivity. }
  split; [exact E|].
  intros w' Hw'. rewrite E in Hw'. injection Hw' as <-.
  destruct w; heap. repeat split; reflexivity.
Qed.

(** C5.  [_setExternalData] writes, under the external key, the received
    properties with [expireTime] replaced: by [now + expiresIn * 1000] when
    [expiresIn] is a non-zero number, by [undefined] when it is absent or
    zero; every other property is written as received (whatever
    [expireTime] the payload carried is dropped). *)
Theorem setExternalData_expireTime (w : world) (newData : gmap string jsval) :
  ∃ stored,
    _cache (_setExternalData StringToNumber (JObj newData) w).2 !! _externalCacheId w
    = Some (JObj stored)
    ∧ (∀ expiresIn, newData !! "expiresIn" = Some (JNum expiresIn) → expiresIn ≠ 0 →
         get_prop (JObj stored) "expireTime" = inl (JNum (now w + expiresIn * 1000)))
    ∧ (newData !! "expiresIn" = None ∨ newData !! "expiresIn" = Some (JNum 0) →
         get_prop (JObj stored) "expireTime" = inl JUndefined)
    ∧ (∀ name, name ≠ "expireTime" → stored !! name = newData !! name).
Proof.
  destruct w as [c ik ek ep cid c1 c2 c3 c4 ini h d t ps lg].
  unfold _setExternalData. cbn [get_prop].
  destruct (newData !! "expiresIn") as [v|] eqn:E; cbn [default].
  - destruct (truthy v) eqn:Tv; heap; rewrite Tv; heap; rewrite lookup_insert_eq;
      eexists; (split; [reflexivity|]); repeat split.
    + intros e [= ->] _. rewrite lookup_insert_eq. reflexivity.
    + intros [[=]|[= ->]]. discriminate Tv.
    + intros name Hn. rewrite lookup_insert_ne by congruence. reflexivity.
    + intros e [= ->] He. cbn in Tv. apply negb_false_iff, Z.eqb_eq in Tv. lia.
    + intros _. rewrite lookup_insert_eq. reflexivity.
    + intros name Hn. rewrite lookup_insert_ne by congruence. reflexivity.
  - heap. rewrite lookup_insert_eq. eexists. split; [reflexivity|]. repeat split.
    + intros e [=].
    + intros _. rewrite lookup_insert_eq. reflexivity.
    + intros name Hn. rewrite lookup_insert_ne by congruence. reflexivity.
Qed.

(** C1.  What [externalDataExpired()] computes.  Without a cached value it
    resolves with [true].  With a cached document whose [expireTime] is the
    number [t] it resolves with [t - refreshHandicapMs > now], that is with
    [true] as long as the document is still more than the handicap away from
    its expiry, and with [false] from then on: the opposite of "expired". *)
Theorem externalDataExpired_result (w : world) :
  (truthy (default JUndefined (_cache w !! _externalCacheId w)) = false →
   ∃ w', run [Invoke M_externalDataExpired; Resume (new_promise w 1);
              Resume (new_promise w 2)] w = Some w'
     ∧ promises w' !! new_promise w 2 = Some (Settled (Resolved (JBool true))))
  ∧
  (∀ (data : gmap string jsval) (expireTime : Z),
     _cache w !! _externalCacheId w = Some (JObj data) →
     data !! "expireTime" = Some (JNum expireTime) →
     ∃ w', run [Invoke M_externalDataExpired; Resume (new_promise w 1);
                Resume (new_promise w 2)] w = Some w'
       ∧ promises w' !! new_promise w 2
         = Some (Settled (Resolved (JBool (now w <? expireTime - _refreshHandicapMs w))))).
Proof.
  destruct w as [c ik ek ep cid c1 c2 c3 c4 ini h d t ps lg]. cbn [_cache _externalCacheId].
  split.
  - intros F. eexists. split.
    + exec_with ltac:(unfold or_else; rewrite ?F). reflexivity.
    + heap. reflexivity.
  - intros data expireTime Hc Hd. eexists. split.
    + exec_with ltac:(rewrite ?Hc, ?Hd). reflexivity.
    + heap. reflexivity.
Qed.

(** C9.  The flag [initialized] is [false] when the constructor is done; no
    step, hence no run, resets it once it is [true]; the step that sets it
    is the one in which a bootstrap attempt ([_init]) returns, emitting
    [initialized]; every bootstrap attempt that returns has set it; and
    after any run from the constructor it is [true] if and only if
    [initialized] has been emitted. *)
Theorem initialized_is_monotone :
  (∀ o t, get_initialized (constructor o t) = false)
  ∧ (∀ l w w', step l w = Some w' → get_initialized w = true → get_initialized w' = true)
  ∧ (∀ ls w w', run ls w = Some w' → get_initialized w = true → get_initialized w' = true)
  ∧ (∀ l w w',
       step l w = Some w' → get_initialized w = false → get_initialized w' = true →
       ∃ p k on initialData,
         l = Resume p ∧ (k = K__init_1 ∨ k = K__init_2)
         ∧ promises w !! p = Some (Suspended k on)
         ∧ promises w !! on = Some (Settled (Resolved initialData))
         ∧ promises w' !! p = Some (Settled (Resolved JUndefined))
         ∧ log w' = log w ++ [Emit initialized initialData])
  ∧ (∀ w w' p k on,
       k = K__init_1 ∨ k = K__init_2 →
       promises w !! p = Some (Suspended k on) →
       step (Resume p) w = Some w' →
       (∃ v, promises w' !! p = Some (Settled (Resolved v))) →
       get_initialized w' = true)
  ∧ (∀ o t ls w',
       run ls (constructor o t) = Some w' →
       (get_initialized w' = true ↔ emitted initialized (log w') ≠ [])).
Proof.
  unfold get_initialized. split; [|split; [|split; [|split; [|split]]]].
  - intros o t. unfold constructor, new_instance. break; reflexivity.
  - apply step_initialized_mono.
  - intros ls. induction ls as [|l ls IH]; intros w w'.
    + rewrite run_nil. intros [= <-]. trivial.
    + rewrite run_cons. destruct (step l w) as [w1|] eqn:E; [|discriminate].
      intros Hr Hi. apply (IH w1 w' Hr). eapply step_initialized_mono; eassumption.
  - apply step_initialized_flip.
  - apply init_return_sets_initialized.
  - intros o t ls w' Hr. apply (run_initialized_iff_emitted ls _ w' Hr).
    unfold constructor, new_instance. break; cbn; split; intros; congruence.
Qed.

(** C7.  With a client identifier, no bootstrap in flight and a (truthy)
    value in the initial slot of the cache, [init()] goes through the read
    of the cache and nothing else of the collaborators: no request is made,
    [initialized] is emitted with the cached value, the flag is set and the
    promise of [init()] is fulfilled. *)
Theorem init_from_cache (w : world) (initialData : jsval) :
  truthy (_clientId w) = true →
  _initialPromise w = None →
  _cache w !! _initialCacheId w = Some initialData →
  truthy initialData = true →
  ∃ w', run [Invoke M_init; Resume (new_promise w 1); Resume (new_promise w 2);
             Resume (new_promise w 3)] w = Some w'
    ∧ promises w' !! new_promise w 3 = Some (Settled (Resolved JUndefined))
    ∧ get_initialized w' = true
    ∧ log w' = log w ++ [CacheGet (_initialCacheId w); Emit initialized initialData]
    ∧ requests (log w') = requests (log w)
    ∧ _initialPromise w' = None.
Proof.
  destruct w as [c ik ek ep cid c1 c2 c3 c4 ini h d t ps lg].
  cbn [_clientId _initialPromise _cache _initialCacheId].
  intros Hid -> Hc Ht.
  eexists. split.
  - exec_with ltac:(unfold or_else; rewrite ?Hid, ?Hc, ?Ht). reflexivity.
  - heap. unfold requests. rewrite List.filter_app. cbn. rewrite app_nil_r.
    repeat split; reflexivity.
Qed.


(** C4, as the code has it.  A caller of [fetchExternalData] that finds the
    fetch fulfilled with a value [v] (any value but [undefined] and [null])
    first writes it through [_setExternalData], still suspended, and in the
    step in which it returns [v] resets the cell and emits
    [external-data-updated] with [v].  No other step emits that event: it is
    emitted once per caller that returns, not once per fetch. *)
Theorem externalDataUpdated_per_caller :
  (∀ u c attempt v expiresIn,
     promises u !! c = Some (Suspended K_fetchExternalData_1 attempt) →
     promises u !! attempt = Some (Settled (Resolved v)) →
     get_prop v "expiresIn" = inl expiresIn →
     ∃ u1 u2,
       step (Resume c) u = Some u1
       ∧ log u1 = log u ++ [CacheSet (_externalCacheId u)
                              (stored_external StringToNumber (now u) v)]
       ∧ _cache u1 !! _externalCacheId u
         = Some (stored_external StringToNumber (now u) v)
       ∧ promises u1 !! c
         = Some (Suspended (K_fetchExternalData_2 v) (new_promise u 1))
       ∧ run [Resume (new_promise u 1); Resume c] u1 = Some u2
       ∧ log u2 = log u1 ++ [Emit externalDataUpdated v]
       ∧ promises u2 !! c = Some (Settled (Resolved v))
       ∧ _externalFetchPromise u2 = None)
  ∧ (∀ l w w',
       step l w = Some w' →
       emitted externalDataUpdated (log w') = emitted externalDataUpdated (log w)
       ∨ ∃ c on externalData v,
           l = Resume c
           ∧ promises w !! c = Some (Suspended (K_fetchExternalData_2 externalData) on)
           ∧ promises w !! on = Some (Settled (Resolved v))
           ∧ promises w' !! c = Some (Settled (Resolved externalData))
           ∧ emitted externalDataUpdated (log w')
             = emitted externalDataUpdated (log w) ++ [externalData]).
Proof.
  split.
  - intros u c attempt v x Hc Ha G.
    destruct (fetchExternalData_caller_completes u c attempt v x Hc Ha G)
      as (u1 & u2 & Hs & Hl & Hch & Hp1 & Hr & Hl2 & Hp2 & Hcell & _).
    exists u1, u2. rewrite Hch, lookup_insert_eq. repeat split; assumption.
  - apply step_emits_update.
Qed.

(** C8, as the code has it.  A fresh attempt of [refreshExternalData()]
    (1) only starts the timer of the settling delay at the call; (2) a timer
    cannot fire before its deadline; (3) once it has fired, the attempt reads
    the external slot of the cache; (4) with a cached document whose
    [discoveryApi.externalUri] is [externalUri] it delegates to
    [fetchExternalData(externalUri)], which makes the one request for that
    address if no external fetch is in flight, and makes no request and
    joins the fetch in flight otherwise; (5) without a cached value the
    attempt fails on the property access, and no request is made.  The
    delay is 100 ms unless configured. *)
Theorem refreshExternalData_attempt (w : world) (ms : Z) :
  _externalRefreshPromise w = None →
  0 ≤ ms → _refreshDelayMs w ≤ ms →
  let key := _externalCacheId w in
  let wait := [Invoke M_refreshExternalData; Elapse ms; Fire (new_promise w 0);
               Resume (new_promise w 1)] in
  let read := [Resume (new_promise w 4); Resume (new_promise w 1)] in
  (∃ w1, step (Invoke M_refreshExternalData) w = Some w1
     ∧ log w1 = log w ++ [Delay (_refreshDelayMs w) (new_promise w 0)]
     ∧ promises w1 !! new_promise w 0 = Some (Timer (now w + _refreshDelayMs w))
     ∧ promises w1 !! new_promise w 1
       = Some (Suspended K__refreshExternalData_1 (new_promise w 0)))
  ∧ (∀ u p deadline,
       promises u !! p = Some (Timer deadline) → now u < deadline →
       step (Fire p) u = None)
  ∧ (∃ w2, run wait w = Some w2
       ∧ log w2 = log w ++ [Delay (_refreshDelayMs w) (new_promise w 0); CacheGet key])
  ∧ (∀ oldExternalData discoveryApi externalUri,
       _cache w !! key = Some (JObj oldExternalData) →
       oldExternalData !! "discoveryApi" = Some (JObj discoveryApi) →
       discoveryApi !! "externalUri" = Some externalUri →
       (_externalFetchPromise w = None →
        ∃ w3, run (wait ++ read) w = Some w3
          ∧ log w3 = log w ++ [Delay (_refreshDelayMs w) (new_promise w 0);
                               CacheGet key;
                               FetchGet externalUri JNull
                                 (JObj {[ "skipDiscoveryCheck" := JBool true ]})
                                 (new_promise w 5)]
          ∧ promises w3 !! new_promise w 1
            = Some (Suspended K__refreshExternalData_3 (new_promise w 7))
          ∧ promises w3 !! new_promise w 7
            = Some (Suspended K_fetchExternalData_1 (new_promise w 6)))
       ∧ (∀ inFlight,
            _externalFetchPromise w = Some inFlight →
            ∃ w3, run (wait ++ read) w = Some w3
              ∧ log w3 = log w ++ [Delay (_refreshDelayMs w) (new_promise w 0);
                                   CacheGet key]
              ∧ promises w3 !! new_promise w 1
                = Some (Suspended K__refreshExternalData_3 (new_promise w 5))
              ∧ promises w3 !! new_promise w 5
                = Some (Suspended K_fetchExternalData_1 inFlight)))
  ∧ (truthy (default JUndefined (_cache w !! key)) = false →
     ∃ w3, run (wait ++ read) w = Some w3
       ∧ log w3 = log w ++ [Delay (_refreshDelayMs w) (new_promise w 0); CacheGet key]
       ∧ promises w3 !! new_promise w 1
         = Some (Settled (Rejected (TypeError "Cannot read properties of null"))))
  ∧ (∀ o t, refreshDelayMs o = None → _refreshDelayMs (new_instance o t) = 100).
Proof.
  destruct w as [c ik ek ep cid c1 c2 c3 c4 ini h d t ps lg].
  cbn [_externalRefreshPromise _refreshDelayMs _externalCacheId _cache _externalFetchPromise now log].
  intros -> H0 Hd. cbn zeta.
  assert (E0 : (0 <=? ms) = true) by (apply Z.leb_le; exact H0).
  assert (E1 : (t + d <=? t + ms) = true) by (apply Z.leb_le; lia).
  repeat split.
  - eexists. split; [heap; reflexivity|]. heap. rewrite ?Nat.add_0_r. repeat split; reflexivity.
  - intros u p deadline Hp Hlt. cbn. rewrite Hp.
    destruct (deadline <=? now u) eqn:E; [|reflexivity]. apply Z.leb_le in E. lia.
  - eexists. split; [exec_with ltac:(rewrite ?E0, ?E1); reflexivity|]. heap. rewrite ?Nat.add_0_r. reflexivity.
  - intros -> . eexists. split.
    + cbn [app]. exec_with ltac:(unfold or_else; rewrite ?E0, ?E1, ?H, ?H1, ?H2). reflexivity.
    + heap. rewrite ?Nat.add_0_r. repeat split; reflexivity.
  - intros q ->. eexists. split.
    + cbn [app]. exec_with ltac:(unfold or_else; rewrite ?E0, ?E1, ?H, ?H1, ?H2). reflexivity.
    + heap. rewrite ?Nat.add_0_r. repeat split; reflexivity.
  - intros F. eexists. split.
    + cbn [app]. exec_with ltac:(unfold or_else; rewrite ?E0, ?E1, ?F). reflexivity.
    + heap. rewrite ?Nat.add_0_r. repeat split; reflexivity.
  - intros o t' E. cbn. rewrite E. reflexivity.
Qed.

(** ** Further properties of the code *)

(** *** What no run changes *)

Lemma append_inj_r (s a b : string) : s +:+ a = s +:+ b → a = b.
Proof. induction s as [|c s IH]; cbn; [trivial|]. intros [= H]. auto. Qed.

(** A step leaves the configuration, and the cache outside the two keys. *)
Lemma step_frame (l : label) (w w' : world) :
  step l w = Some w' →
  config w' = config w
  ∧ ∀ k, k ≠ _initialCacheId w → k ≠ _externalCacheId w →
      _cache w' !! k = _cache w !! k.
Proof.
  destruct w as [c ik ek ep cid c1 c2 c3 c4 ini h d t ps lg]. intros Hs.
  destruct l as [m|p|p o|ms|p]; cbn in Hs.
  - destruct m; revert Hs; break; frame_of_step.
  - revert Hs.
    destruct (ps !! p) as [[o|k on| |]|] eqn:Ep; cbn; try (intros; discriminate).
    destruct (ps !! on) as [[o| | |]|] eqn:Eon; cbn; try (intros; discriminate).
    destruct k; destruct o; cbn [continue]; break; frame_of_step.
  - revert Hs; break; try discriminate; intros [= <-]; split; reflexivity.
  - revert Hs; break; try discriminate; intros [= <-]; split; reflexivity.
  - revert Hs; break; try discriminate; intros [= <-]; split; reflexivity.
Qed.

(** The effects a step adds, and the shape of the requests among them. *)
Lemma step_requests (l : label) (w w' : world) :
  step l w = Some w' →
  ∃ added, log w' = log w ++ added ∧ Forall (discovery_request w) added.
Proof.
  destruct w as [c ik ek ep cid c1 c2 c3 c4 ini h d t ps lg]. intros Hs.
  destruct l as [m|p|p o|ms|p]; cbn in Hs.
  - destruct m; revert Hs; break; requests_of_step.
  - revert Hs.
    destruct (ps !! p) as [[o|k on| |]|] eqn:Ep; cbn; try (intros; discriminate).
    destruct (ps !! on) as [[o| | |]|] eqn:Eon; cbn; try (intros; discriminate).
    destruct k; destruct o; cbn [continue]; break; requests_of_step.
  - revert Hs; break; try discriminate; requests_of_step.
  - revert Hs; break; try discriminate; requests_of_step.
  - revert Hs; break; try discriminate; requests_of_step.
Qed.

Lemma run_frame (ls : list label) : ∀ w w',
  run ls w = Some w' →
  config w' = config w
  ∧ ∀ k, k ≠ _initialCacheId w → k ≠ _externalCacheId w →
      _cache w' !! k = _cache w !! k.
Proof.
  induction ls as [|l ls IH]; intros w w'.
  - rewrite run_nil. intros [= <-]. split; reflexivity.
  - rewrite run_cons. destruct (step l w) as [w1|] eqn:E; [|discriminate].
    intros Hr. destruct (step_frame l w w1 E) as [Hc Hf].
    destruct (IH w1 w' Hr) as [Hc' Hf'].
    split; [congruence|].
    intros k H1 H2. rewrite <- Hf by assumption. apply Hf'.
    + unfold config in Hc. congruence.
    + unfold config in Hc. congruence.
Qed.

Lemma constructor_frame (o : DiscoveryOptions) (t : Z) :
  config (constructor o t) = config (new_instance o t)
  ∧ _cache (constructor o t) = cache o.
Proof. unfold constructor, new_instance. break; split; reflexivity. Qed.

Lemma run_requests (ls : list label) : ∀ w w',
  run ls w = Some w' →
  ∃ added, log w' = log w ++ added ∧ Forall (discovery_request w) added.
Proof.
  induction ls as [|l ls IH]; intros w w'.
  - rewrite run_nil. intros [= <-]. exists []. rewrite app_nil_r. split; [reflexivity|constructor].
  - rewrite run_cons. destruct (step l w) as [w1|] eqn:E; [|discriminate].
    intros Hr. destruct (step_requests l w w1 E) as (a1 & Hl1 & Hf1).
    destruct (IH w1 w' Hr) as (a2 & Hl2 & Hf2).
    destruct (step_frame l w w1 E) as [Hc _].
    exists (a1 ++ a2). split; [rewrite Hl2, Hl1, app_assoc; reflexivity|].
    apply Forall_app. split; [exact Hf1|].
    eapply Forall_impl; [exact Hf2|].
    intros e. unfold discovery_request, config in *. injection Hc as _ _ -> -> _ _. trivial.
Qed.

(** X1.  The constructor never throws.  With a client identifier it leaves
    the bootstrap started: the one call to a collaborator so far is the read
    of the initial slot, the memo cell of [init] holds the attempt, and an
    explicit [init()] right after the construction joins that attempt
    without a second read.  Without a client identifier the instance exists
    all the same: nothing was read, and the promise of the call to [init],
    which the constructor drops, is rejected with the configuration
    error. *)
Theorem constructor_starts_bootstrap (o : DiscoveryOptions) (t : Z) :
  (truthy (clientId o) = true →
   log (constructor o t) = [CacheGet (cacheId o +:+ "-initial")]
   ∧ promises (constructor o t)
     = [Settled (Resolved (default JUndefined (cache o !! (cacheId o +:+ "-initial"))));
        Suspended K_initialData 0%nat; Suspended K__init_1 1%nat; Suspended K_init 2%nat]
   ∧ _initialPromise (constructor o t) = Some 2%nat
   ∧ ∃ w', step (Invoke M_init) (constructor o t) = Some w'
       ∧ log w' = log (constructor o t)
       ∧ promises w' !! 4%nat = Some (Suspended K_init 2%nat))
  ∧ (truthy (clientId o) = false →
     log (constructor o t) = []
     ∧ promises (constructor o t)
       = [Settled (Rejected (Error "Client Id is required for discovery"))]
     ∧ _cache (constructor o t) = cache o
     ∧ _initialPromise (constructor o t) = None).
Proof.
  unfold constructor, new_instance. split; intros Hid.
  - heap. rewrite Hid. heap. repeat split.
    eexists. split; [heap; rewrite Hid; heap; reflexivity|]. split; reflexivity.
  - heap. rewrite Hid. heap. repeat split.
Qed.

(** X2.  The configuration is fixed by the constructor: whatever is called
    and whatever the transport and the timers do afterwards, the initial
    endpoint, the client identifier, the refresh handicap (one minute unless
    given) and the settling delay (100 ms unless given) stay those of the
    options. *)
Theorem configuration_is_fixed (o : DiscoveryOptions) (t : Z) (ls : list label) (w' : world) :
  run ls (constructor o t) = Some w' →
  _initialEndpoint w' = initialEndpoint o
  ∧ _clientId w' = clientId o
  ∧ _refreshHandicapMs w' = default DEFAULT_RENEW_HANDICAP_MS (refreshHandicapMs o)
  ∧ _refreshDelayMs w' = default 100 (refreshDelayMs o).
Proof.
  intros Hr. destruct (run_frame ls _ _ Hr) as [Hc _].
  destruct (constructor_frame o t) as [Hc0 _].
  rewrite Hc0 in Hc. unfold config in Hc. cbn in Hc.
  injection Hc as _ _ -> -> -> ->. repeat split; reflexivity.
Qed.

(** X3.  The coordinator owns two keys of the cache, [<cacheId>-initial]
    and [<cacheId>-external].  They are distinct, they never change, and no
    run writes or removes an entry under any other key: what else the
    shared cache holds is as the options gave it. *)
Theorem cache_isolation (o : DiscoveryOptions) (t : Z) (ls : list label) (w' : world) :
  run ls (constructor o t) = Some w' →
  _initialCacheId w' = cacheId o +:+ "-initial"
  ∧ _externalCacheId w' = cacheId o +:+ "-external"
  ∧ _initialCacheId w' ≠ _externalCacheId w'
  ∧ ∀ k, k ≠ cacheId o +:+ "-initial" → k ≠ cacheId o +:+ "-external" →
      _cache w' !! k = cache o !! k.
Proof.
  intros Hr. destruct (run_frame ls _ _ Hr) as [Hc Hf].
  destruct (constructor_frame o t) as [Hc0 Hcache].
  rewrite Hc0 in Hc. unfold config in Hc. cbn in Hc.
  injection Hc as Hi He _ _ _ _.
  assert (Hi0 : _initialCacheId (constructor o t) = cacheId o +:+ "-initial")
    by (unfold config in Hc0; cbn in Hc0; congruence).
  assert (He0 : _externalCacheId (constructor o t) = cacheId o +:+ "-external")
    by (unfold config in Hc0; cbn in Hc0; congruence).
  rewrite Hi, He. repeat split.
  - intros E. apply append_inj_r in E. discriminate.
  - intros k H1 H2. rewrite Hf by congruence. rewrite Hcache. reflexivity.
Qed.

(** X4.  The requests the coordinator ever makes have one of two shapes:
    the initial one, to the configured endpoint with the client identifier
    as query and [skipAuthCheck], or the external one, with no query and
    [skipDiscoveryCheck]. *)
Theorem only_discovery_requests (o : DiscoveryOptions) (t : Z) (ls : list label) (w' : world) :
  run ls (constructor o t) = Some w' →
  Forall (discovery_request (new_instance o t)) (log w').
Proof.
  intros Hr. destruct (run_requests ls _ _ Hr) as (added & -> & Hf).
  destruct (constructor_frame o t) as [Hc _].
  apply Forall_app. split.
  - unfold constructor, new_instance. break; repeat constructor.
  - eapply Forall_impl; [exact Hf|].
    intros e. unfold discovery_request, config in *. injection Hc as _ _ -> -> _ _. trivial.
Qed.

(** X5.  Single flight of [init], the fourth memo cell.  From an empty cell,
    two or more calls in a row start one bootstrap (one read of the cache)
    and every caller waits for it; whenever the cell holds an attempt, a
    call only adds a caller that waits for that attempt. *)
Theorem init_single_flight (w : world) (n : nat) :
  truthy (_clientId w) = true →
  (_initialPromise w = None →
   ∃ w', run (repeat (Invoke M_init) (S (S n))) w = Some w'
     ∧ log w' = log w ++ [CacheGet (_initialCacheId w)]
     ∧ _initialPromise w' = Some (new_promise w 2)
     ∧ promises w' !! new_promise w 2 = Some (Suspended K__init_1 (new_promise w 1))
     ∧ (∀ i, (i < S (S n))%nat →
          promises w' !! new_promise w (3 + i)
          = Some (Suspended K_init (new_promise w 2)))
     ∧ length (promises w') = new_promise w (5 + n))
  ∧ (∀ attempt,
       _initialPromise w = Some attempt →
       step (Invoke M_init) w
       = Some (set_promises (promises w ++ [Suspended K_init attempt]) w)).
Proof.
  intros Hid.
  assert (Hjoin : ∀ u attempt, truthy (_clientId u) = true → _initialPromise u = Some attempt →
            step (Invoke M_init) u
            = Some (set_promises (promises u ++ [Suspended K_init attempt]) u)).
  { intros [ch ik ek ep cid c1 c2 c3 c4 ini h d t ps lg] a. cbn [_clientId _initialPromise].
    intros Hu ->. heap. rewrite Hu. heap. reflexivity. }
  assert (Hjoins : ∀ m u attempt, truthy (_clientId u) = true → _initialPromise u = Some attempt →
            run (repeat (Invoke M_init) m) u
            = Some (set_promises (promises u ++ repeat (Suspended K_init attempt) m) u)).
  { induction m as [|m IH]; intros u a Hu Hc.
    - cbn [repeat]. rewrite run_nil, app_nil_r. destruct u; reflexivity.
    - cbn [repeat]. rewrite run_cons, (Hjoin u a Hu Hc).
      rewrite (IH _ a) by (destruct u; assumption).
      destruct u; cbn. rewrite <- app_assoc. reflexivity. }
  split; [|intros a Ha; apply Hjoin; assumption].
  destruct w as [ch ik ek ep cid c1 c2 c3 c4 ini h d t ps lg].
  cbn [_clientId _initialPromise log _initialCacheId] in *. intros ->.
  eexists. split.
  { change (repeat (Invoke M_init) (S (S n)))
      with (Invoke M_init :: repeat (Invoke M_init) (S n)).
    rewrite run_cons. heap. rewrite Hid. heap.
    rewrite (Hjoins (S n) _ (length ps + 2)%nat) by (cbn; first [assumption|reflexivity]).
    reflexivity. }
  heap. split; [reflexivity|]. split; [reflexivity|].
  split; [reflexivity|]. split.
  - intros i Hi. rewrite heap_lookup_at.
    change (repeat (Suspended K_init (length ps + 2)%nat) (S (S n)) !! i
            = Some (Suspended K_init (length ps + 2)%nat)).
    revert Hi. generalize (S (S n)). intros m. revert i.
    induction m as [|m IH]; intros [|i] Hi; cbn; try lia; [reflexivity|]. apply IH. lia.
  - cbn. rewrite repeat_length. lia.
Qed.

(** X6.  The bootstrap through the network.  With a client identifier,
    nothing in flight and no (truthy) value in the initial slot, [init()]
    reads the cache, makes the one initial request, stores the parsed body
    under the initial key as received, emits [initialized] with it, sets the
    flag and is fulfilled; both memo cells are empty again. *)
Theorem bootstrap_from_network (w : world) (props : gmap string jsval)
    (body : jsval) (headers : gmap string string) :
  truthy (_clientId w) = true →
  _initialPromise w = None →
  _initialFetchPromise w = None →
  truthy (default JUndefined (_cache w !! _initialCacheId w)) = false →
  ∃ w', run [Invoke M_init; Resume (new_promise w 1); Resume (new_promise w 2);
             Respond (new_promise w 4) (Resolved (JResponse props (inl body) headers));
             Resume (new_promise w 5); Resume (new_promise w 5);
             Resume (new_promise w 9); Resume (new_promise w 5);
             Resume (new_promise w 6); Resume (new_promise w 2);
             Resume (new_promise w 3)] w = Some w'
    ∧ log w' = log w ++ [CacheGet (_initialCacheId w);
                         FetchGet (JStr (_initialEndpoint w))
                           (JObj {[ "clientId" := _clientId w ]})
                           (JObj {[ "skipAuthCheck" := JBool true ]})
                           (new_promise w 4);
                         CacheSet (_initialCacheId w) body;
                         Emit initialized body]
    ∧ _cache w' = <[_initialCacheId w := body]> (_cache w)
    ∧ get_initialized w' = true
    ∧ promises w' !! new_promise w 3 = Some (Settled (Resolved JUndefined))
    ∧ _initialPromise w' = None
    ∧ _initialFetchPromise w' = None.
Proof.
  destruct w as [c ik ek ep cid c1 c2 c3 c4 ini h d t ps lg].
  cbn [_clientId _initialPromise _initialFetchPromise _cache _initialCacheId].
  intros Hid -> -> F.
  eexists. split.
  - exec_with ltac:(unfold or_else; rewrite ?Hid, ?F). reflexivity.
  - heap. repeat split; reflexivity.
Qed.

(** X7.  What the missing [try] in [fetchInitialData] means for [init]:
    once an initial fetch has failed, its rejected promise stays in the
    cell, and a later [init()] on a cache without initial document reads the
    cache, makes no request at all and is rejected with the old error.  The
    flag is not changed. *)
Theorem init_replays_failed_fetch (u : world) (attempt : promise) (e : error) :
  truthy (_clientId u) = true → _initialPromise u = None →
  _initialFetchPromise u = Some attempt →
  promises u !! attempt = Some (Settled (Rejected e)) →
  truthy (default JUndefined (_cache u !! _initialCacheId u)) = false →
  ∃ u', run [Invoke M_init; Resume (new_promise u 1); Resume (new_promise u 2);
             Resume (new_promise u 4); Resume (new_promise u 2);
             Resume (new_promise u 3)] u = Some u'
    ∧ promises u' !! new_promise u 3 = Some (Settled (Rejected e))
    ∧ log u' = log u ++ [CacheGet (_initialCacheId u)]
    ∧ get_initialized u' = get_initialized u
    ∧ _initialPromise u' = None
    ∧ _initialFetchPromise u' = Some attempt.
Proof.
  destruct u as [c ik ek ep cid c1 c2 c3 c4 ini h d t ps lg].
  cbn [_clientId _initialPromise _initialFetchPromise promises _cache _initialCacheId].
  intros Hid -> -> Ha F.
  assert (Hlt : (attempt < length ps)%nat) by (eapply lookup_lt_Some; eassumption).
  eexists. split.
  - exec_with ltac:(unfold or_else; rewrite ?Hid, ?F, ?(heap_lookup_old _ _ _ _ Ha)). reflexivity.
  - heap. repeat split; reflexivity.
Qed.

(** X8.  The [catch] blocks.  A caller of [init] or of
    [refreshExternalData] that finds its attempt settled resets the memo
    cell whatever the outcome, and passes a failure on; a caller of
    [fetchExternalData] does the same on a failure of the fetch or of the
    write.  None of these steps calls a collaborator or touches the
    cache. *)
Theorem callers_reset_their_cell (u : world) (c attempt : promise) (o : outcome) :
  promises u !! attempt = Some (Settled o) →
  (promises u !! c = Some (Suspended K_init attempt) →
   ∃ u', step (Resume c) u = Some u'
     ∧ _initialPromise u' = None
     ∧ promises u' !! c
       = Some (Settled match o with Resolved _ => Resolved JUndefined | Rejected x => Rejected x end)
     ∧ log u' = log u ∧ _cache u' = _cache u)
  ∧ (promises u !! c = Some (Suspended K_refreshExternalData attempt) →
     ∃ u', step (Resume c) u = Some u'
       ∧ _externalRefreshPromise u' = None
       ∧ promises u' !! c
         = Some (Settled match o with Resolved _ => Resolved JUndefined | Rejected x => Rejected x end)
       ∧ log u' = log u ∧ _cache u' = _cache u)
  ∧ (∀ e externalData,
       o = Rejected e →
       promises u !! c = Some (Suspended K_fetchExternalData_1 attempt)
       ∨ promises u !! c = Some (Suspended (K_fetchExternalData_2 externalData) attempt) →
       ∃ u', step (Resume c) u = Some u'
         ∧ _externalFetchPromise u' = None
         ∧ promises u' !! c = Some (Settled (Rejected e))
         ∧ log u' = log u ∧ _cache u' = _cache u).
Proof.
  destruct u as [ch ik ek ep cid c1 c2 c3 c4 ini h d t ps lg]. cbn [promises].
  intros Ha. repeat split.
  - intros Hc. assert (Hlt : (c < length ps)%nat) by (eapply lookup_lt_Some; eassumption).
    destruct o; eexists; (split; [cbn; rewrite Hc, Ha; heap; reflexivity|]);
      heap; rewrite list_lookup_insert_eq by assumption; repeat split; reflexivity.
  - intros Hc. assert (Hlt : (c < length ps)%nat) by (eapply lookup_lt_Some; eassumption).
    destruct o; eexists; (split; [cbn; rewrite Hc, Ha; heap; reflexivity|]);
      heap; rewrite list_lookup_insert_eq by assumption; repeat split; reflexivity.
  - intros e x -> [Hc|Hc];
      assert (Hlt : (c < length ps)%nat) by (eapply lookup_lt_Some; eassumption);
      (eexists; (split; [cbn; rewrite Hc, Ha; heap; reflexivity|]);
       heap; rewrite list_lookup_insert_eq by assumption; repeat split; reflexivity).
Qed.

(** The attempt of [fetchExternalData], from the call to its result. *)
Lemma fetchExternalData_attempt_resolves (w : world) (externalEndoint : string)
    (props body : gmap string jsval) (headers : gmap string string) :
  _externalFetchPromise w = None →
  ∃ u, run [Invoke (M_fetchExternalData externalEndoint);
            Respond (new_promise w 0)
              (Resolved (JResponse props (inl (JObj body)) headers));
            Resume (new_promise w 1); Resume (new_promise w 1)] w = Some u
    ∧ log u = log w ++ [FetchGet (JStr externalEndoint) JNull
                          (JObj {[ "skipDiscoveryCheck" := JBool true ]})
                          (new_promise w 0)]
    ∧ promises u !! new_promise w 1
      = Some (Settled (Resolved (JObj (tagged headers body))))
    ∧ promises u !! new_promise w 2
      = Some (Suspended K_fetchExternalData_1 (new_promise w 1))
    ∧ new_promise u 1 = new_promise w 5
    ∧ now u = now w ∧ _externalCacheId u = _externalCacheId w ∧ _cache u = _cache w.
Proof.
  destruct w as [c ik ek ep cid c1 c2 c3 c4 ini h d t ps lg].
  cbn [_externalFetchPromise]. intros ->. unfold tagged.
  destruct (headers !! "discovery-tag") as [[|a s]|] eqn:Ht;
    (eexists; split;
     [ exec_with ltac:(rewrite ?Ht); reflexivity
     | heap; rewrite ?Nat.add_0_r; repeat split; reflexivity ]).
Qed.

(** X9.  [fetchExternalData(url)], start to end, with no fetch in flight and
    a response whose body parses to a document.  One request is made for
    [url]; the document, with [tag] set from the header [discovery-tag]
    when the response has a non-empty one, is stored under the external key
    with its [expireTime] computed at the time of the write; the event
    carries, and the caller gets, the document without that [expireTime];
    the cell is empty again. *)
Theorem fetchExternalData_success (w : world) (externalEndoint : string)
    (props body : gmap string jsval) (headers : gmap string string) :
  _externalFetchPromise w = None →
  ∃ w', run [Invoke (M_fetchExternalData externalEndoint);
             Respond (new_promise w 0)
               (Resolved (JResponse props (inl (JObj body)) headers));
             Resume (new_promise w 1); Resume (new_promise w 1);
             Resume (new_promise w 2); Resume (new_promise w 5);
             Resume (new_promise w 2)] w = Some w'
    ∧ log w' = log w ++ [FetchGet (JStr externalEndoint) JNull
                           (JObj {[ "skipDiscoveryCheck" := JBool true ]})
                           (new_promise w 0);
                         CacheSet (_externalCacheId w)
                           (stored_external StringToNumber (now w)
                              (JObj (tagged headers body)));
                         Emit externalDataUpdated (JObj (tagged headers body))]
    ∧ _cache w' !! _externalCacheId w
      = Some (stored_external StringToNumber (now w) (JObj (tagged headers body)))
    ∧ promises w' !! new_promise w 2
      = Some (Settled (Resolved (JObj (tagged headers body))))
    ∧ _externalFetchPromise w' = None.
Proof.
  intros Hc.
  destruct (fetchExternalData_attempt_resolves w externalEndoint props body headers Hc)
    as (u & Hr & Hl & Ha & Hcl & Hn & Hnow & Hk & Hch).
  destruct (fetchExternalData_caller_completes u _ _ _ _ Hcl Ha eq_refl)
    as (u1 & u2 & Hs & Hl1 & Hc1 & _ & Hr2 & Hl2 & Hp2 & Hcell & Hc2).
  exists u2. split.
  - change [Invoke (M_fetchExternalData externalEndoint);
            Respond (new_promise w 0)
              (Resolved (JResponse props (inl (JObj body)) headers));
            Resume (new_promise w 1); Resume (new_promise w 1);
            Resume (new_promise w 2); Resume (new_promise w 5);
            Resume (new_promise w 2)]
      with ([Invoke (M_fetchExternalData externalEndoint);
             Respond (new_promise w 0)
               (Resolved (JResponse props (inl (JObj body)) headers));
             Resume (new_promise w 1); Resume (new_promise w 1)]
            ++ Resume (new_promise w 2)
               :: [Resume (new_promise w 5); Resume (new_promise w 2)]).
    rewrite run_app, Hr, run_cons, Hs, <- Hn. exact Hr2.
  - rewrite Hl2, Hl1, Hl, Hc2, Hc1, Hk, Hnow, <- !app_assoc, lookup_insert_eq.
    repeat split; assumption.
Qed.

(** X10.  When the request of [fetchExternalData] is rejected, or the body
    of the response does not parse, the caller is rejected with that error,
    nothing is written or emitted and the cell is reset: the next call makes
    a new request. *)
Theorem fetchExternalData_failure (w : world) (externalEndoint next : string) (e : error)
    (props : gmap string jsval) (headers : gmap string string) (failed : list label) :
  _externalFetchPromise w = None →
  failed = [Respond (new_promise w 0) (Rejected e); Resume (new_promise w 1)]
  ∨ failed = [Respond (new_promise w 0) (Resolved (JResponse props (inr e) headers));
              Resume (new_promise w 1); Resume (new_promise w 1)] →
  ∃ w' w'',
    run (Invoke (M_fetchExternalData externalEndoint) :: failed ++ [Resume (new_promise w 2)]) w
    = Some w'
    ∧ promises w' !! new_promise w 2 = Some (Settled (Rejected e))
    ∧ _externalFetchPromise w' = None
    ∧ _cache w' = _cache w
    ∧ log w' = log w ++ [FetchGet (JStr externalEndoint) JNull
                           (JObj {[ "skipDiscoveryCheck" := JBool true ]})
                           (new_promise w 0)]
    ∧ step (Invoke (M_fetchExternalData next)) w' = Some w''
    ∧ log w'' = log w' ++ [FetchGet (JStr next) JNull
                             (JObj {[ "skipDiscoveryCheck" := JBool true ]})
                             (new_promise w' 0)].
Proof.
  intros Hcell Hf.
  assert (H : ∃ w', run (Invoke (M_fetchExternalData externalEndoint)
                           :: failed ++ [Resume (new_promise w 2)]) w = Some w'
            ∧ promises w' !! new_promise w 2 = Some (Settled (Rejected e))
            ∧ _externalFetchPromise w' = None
            ∧ _cache w' = _cache w
            ∧ log w' = log w ++ [FetchGet (JStr externalEndoint) JNull
                                   (JObj {[ "skipDiscoveryCheck" := JBool true ]})
                                   (new_promise w 0)]).
  { destruct w as [c ik ek ep cid c1 c2 c3 c4 ini h d t ps lg].
    cbn [_externalFetchPromise] in Hcell. subst c3.
    destruct Hf as [-> | ->]; cbn [app];
      (eexists; split; [exec; reflexivity | heap; rewrite ?Nat.add_0_r; repeat split; reflexivity]). }
  destruct H as (w' & Hr & Hp & Hc & Hch & Hl).
  destruct (first_call (Op_fetchExternalData next) w' Hc)
    as (w'' & Hs & Hl' & _).
  exists w', w''. repeat split; assumption.
Qed.

(** X11.  A refresh, start to end.  Once the settling delay has passed, the
    address is read from [discoveryApi.externalUri] of the cached document,
    the one request goes there, the response replaces the cached document,
    with an [expireTime] that counts from the time of the write,
    [externalDataUpdated] is emitted once, the refresh is fulfilled with
    [undefined] and both memo cells are empty. *)
Theorem refreshExternalData_success (w : world) (ms : Z)
    (oldExternalData discoveryApi props newExternalData : gmap string jsval)
    (externalUri : string) (headers : gmap string string) :
  _externalRefreshPromise w = None → _externalFetchPromise w = None →
  0 ≤ ms → _refreshDelayMs w ≤ ms →
  _cache w !! _externalCacheId w = Some (JObj oldExternalData) →
  oldExternalData !! "discoveryApi" = Some (JObj discoveryApi) →
  discoveryApi !! "externalUri" = Some (JStr externalUri) →
  headers !! "discovery-tag" = None →
  let v := JObj newExternalData in
  ∃ w', run [Invoke M_refreshExternalData; Elapse ms; Fire (new_promise w 0);
             Resume (new_promise w 1); Resume (new_promise w 4); Resume (new_promise w 1);
             Respond (new_promise w 5)
               (Resolved (JResponse props (inl (JObj newExternalData)) headers));
             Resume (new_promise w 6); Resume (new_promise w 6);
             Resume (new_promise w 7); Resume (new_promise w 10); Resume (new_promise w 7);
             Resume (new_promise w 1); Resume (new_promise w 2)] w = Some w'
    ∧ log w' = log w ++ [Delay (_refreshDelayMs w) (new_promise w 0);
                         CacheGet (_externalCacheId w);
                         FetchGet (JStr externalUri) JNull
                           (JObj {[ "skipDiscoveryCheck" := JBool true ]}) (new_promise w 5);
                         CacheSet (_externalCacheId w)
                           (stored_external StringToNumber (now w + ms) v);
                         Emit externalDataUpdated v]
    ∧ _cache w' = <[_externalCacheId w := stored_external StringToNumber (now w + ms) v]>
                    (_cache w)
    ∧ promises w' !! new_promise w 2 = Some (Settled (Resolved JUndefined))
    ∧ _externalRefreshPromise w' = None ∧ _externalFetchPromise w' = None.
Proof.
  destruct w as [c ik ek ep cid c1 c2 c3 c4 ini h d t ps lg].
  cbn [_externalRefreshPromise _refreshDelayMs _externalCacheId _cache _externalFetchPromise now log].
  intros -> -> H0 Hd Hc Ho Hu Ht. cbn zeta.
  assert (E0 : (0 <=? ms) = true) by (apply Z.leb_le; exact H0).
  assert (E1 : (t + d <=? t + ms) = true) by (apply Z.leb_le; lia).
  unfold stored_external. cbn [get_prop own_props].
    match goal with
    | |- context [default JUndefined (?m !! "expiresIn")] =>
        destruct (truthy (default JUndefined (m !! "expiresIn"))) eqn:T
    end;
    (eexists; split;
     [ exec_with ltac:(unfold or_else; rewrite ?E0, ?E1, ?Hc, ?Ho, ?Hu, ?Ht; cbn [default];
                      rewrite ?T); reflexivity
     | heap; rewrite ?T, ?Nat.add_0_r; repeat split; reflexivity ]).
Qed.

(** X12.  [removeExternalData()] removes the entry of the external slot at
    the call and nothing else; from then on [externalData()] resolves with
    [null] and [externalDataExpired()] with [true]. *)
Theorem removeExternalData_round_trip (w : world) :
  ∃ w1 w',
    step (Invoke M_removeExternalData) w = Some w1
    ∧ _cache w1 = delete (_externalCacheId w) (_cache w)
    ∧ log w1 = log w ++ [CacheRemove (_externalCacheId w)]
    ∧ run [Resume (new_promise w 1);
           Invoke M_externalData; Resume (new_promise w 3);
           Invoke M_externalDataExpired; Resume (new_promise w 5);
           Resume (new_promise w 6)] w1 = Some w'
    ∧ promises w' !! new_promise w 1 = Some (Settled (Resolved JUndefined))
    ∧ promises w' !! new_promise w 3 = Some (Settled (Resolved JNull))
    ∧ promises w' !! new_promise w 6 = Some (Settled (Resolved (JBool true)))
    ∧ _cache w' = _cache w1.
Proof.
  destruct w as [c ik ek ep cid c1 c2 c3 c4 ini h d t ps lg].
  do 2 eexists. split; [heap; reflexivity|].
  split; [reflexivity|]. split; [reflexivity|].
  split; [exec_with ltac:(rewrite ?lookup_delete_eq); reflexivity|].
  heap. repeat split; reflexivity.
Qed.

(** X13.  [removeInitialData()] removes the entry of the initial slot; an
    [init()] after it finds nothing in the cache and goes to the network,
    also on an instance that is initialized already, and the flag stays as
    it was. *)
Theorem removeInitialData_then_init (w : world) :
  truthy (_clientId w) = true → _initialPromise w = None → _initialFetchPromise w = None →
  ∃ w',
    run [Invoke M_removeInitialData; Resume (new_promise w 1);
         Invoke M_init; Resume (new_promise w 3); Resume (new_promise w 4)] w = Some w'
    ∧ _cache w' = delete (_initialCacheId w) (_cache w)
    ∧ log w' = log w ++ [CacheRemove (_initialCacheId w); CacheGet (_initialCacheId w);
                         FetchGet (JStr (_initialEndpoint w))
                           (JObj {[ "clientId" := _clientId w ]})
                           (JObj {[ "skipAuthCheck" := JBool true ]}) (new_promise w 6)]
    ∧ get_initialized w' = get_initialized w.
Proof.
  destruct w as [c ik ek ep cid c1 c2 c3 c4 ini h d t ps lg].
  cbn [_clientId _initialPromise _initialFetchPromise].
  intros Hid -> ->. eexists. split.
  - exec_with ltac:(unfold or_else; rewrite ?Hid, ?lookup_delete_eq). reflexivity.
  - heap. repeat split; reflexivity.
Qed.

(** A truthy value has properties to read. *)
Lemma get_prop_truthy (v : jsval) (name : string) :
  truthy v = true → ∃ x, get_prop v name = inl x.
Proof. destruct v; cbn; try discriminate; eauto. Qed.

(** X14.  [externalDataExpired()] is a total, read-only question: whatever
    the external slot holds, the promise is fulfilled with a boolean, the
    one call to a collaborator is the read of that slot, and the cache and
    the clock are untouched. *)
Theorem externalDataExpired_never_rejects (w : world) :
  ∃ w' b,
    run [Invoke M_externalDataExpired; Resume (new_promise w 1); Resume (new_promise w 2)] w
    = Some w'
    ∧ promises w' !! new_promise w 2 = Some (Settled (Resolved (JBool b)))
    ∧ log w' = log w ++ [CacheGet (_externalCacheId w)]
    ∧ _cache w' = _cache w
    ∧ now w' = now w.
Proof.
  destruct w as [c ik ek ep cid c1 c2 c3 c4 ini h d t ps lg].
  destruct (truthy (default JUndefined (c !! ek))) eqn:T.
  - destruct (get_prop_truthy _ "expireTime" T) as [x G].
    do 2 eexists; split;
      [exec_with ltac:(unfold or_else; rewrite ?T, ?G); reflexivity
      | heap; repeat split; reflexivity].
  - do 2 eexists; split;
      [exec_with ltac:(unfold or_else; rewrite ?T); reflexivity
      | heap; repeat split; reflexivity].
Qed.

(** X15.  Write, then ask.  For a document stored at time [t] with a
    non-zero numeric [expiresIn] (seconds), [externalDataExpired()] answers
    [true] as long as less than [expiresIn * 1000 - refreshHandicapMs]
    milliseconds have passed since the write, and [false] from then on.  For
    a document stored without [expiresIn], or with [expiresIn] zero, the
    answer is [false] at any time. *)
Theorem stored_document_lifetime (u : world) (newData : gmap string jsval) (t : Z) :
  _cache u !! _externalCacheId u = Some (stored_external StringToNumber t (JObj newData)) →
  (∀ expiresIn,
     newData !! "expiresIn" = Some (JNum expiresIn) → expiresIn ≠ 0 →
     ∃ u', run [Invoke M_externalDataExpired; Resume (new_promise u 1);
                Resume (new_promise u 2)] u = Some u'
       ∧ promises u' !! new_promise u 2
         = Some (Settled (Resolved
                   (JBool (now u - t <? expiresIn * 1000 - _refreshHandicapMs u)))))
  ∧ (newData !! "expiresIn" = None ∨ newData !! "expiresIn" = Some (JNum 0) →
     ∃ u', run [Invoke M_externalDataExpired; Resume (new_promise u 1);
                Resume (new_promise u 2)] u = Some u'
       ∧ promises u' !! new_promise u 2 = Some (Settled (Resolved (JBool false)))).
Proof.
  destruct u as [c ik ek ep cid c1 c2 c3 c4 ini h d nw ps lg].
  cbn [_cache _externalCacheId _refreshHandicapMs now].
  unfold stored_external. cbn [get_prop own_props]. intros Hc. split.
  - intros n Hn Hz. rewrite Hn in Hc.
    assert (Tn : truthy (default JUndefined (Some (JNum n))) = true)
      by (apply negb_true_iff, Z.eqb_neq; exact Hz).
    rewrite Tn in Hc.
    change (c !! ek = Some (JObj (<["expireTime" := JNum (t + n * 1000)]> newData))) in Hc.
    assert (Eb : (nw - t <? n * 1000 - h) = (nw <? t + n * 1000 - h)).
    { destruct (Z.ltb_spec (nw - t) (n * 1000 - h)); symmetry;
        [apply Z.ltb_lt|apply Z.ltb_ge]; lia. }
    rewrite Eb. eexists. split.
    + exec_with ltac:(unfold or_else; rewrite ?Hc, ?lookup_insert_eq). reflexivity.
    + heap. reflexivity.
  - intros Hn.
    assert (Hc' : c !! ek = Some (JObj (<["expireTime" := JUndefined]> newData))).
    { destruct Hn as [Hn|Hn]; rewrite Hn in Hc; exact Hc. }
    eexists. split.
    + exec_with ltac:(unfold or_else; rewrite ?Hc', ?lookup_insert_eq). reflexivity.
    + heap. reflexivity.
Qed.

End Properties.

(** ** The claims, evaluated *)

(** C1, evaluated.  The cached document expires at 3 600 000 and the handicap
    is 60 000.  At time 0, an hour before the expiry, the method answers
    [true]; at time 3 540 000, where the handicap begins, and at time
    4 000 000, after the expiry, it answers [false]. *)
Lemma externalDataExpired_result_witness :
  (∃ w', run no_numeric_string
           [Invoke M_externalDataExpired; Resume 5%nat; Resume 6%nat]
           (client_with_external_document 0) = Some w'
     ∧ promises w' !! 6%nat = Some (Settled (Resolved (JBool true))))
  ∧ (∃ w', run no_numeric_string
           [Invoke M_externalDataExpired; Resume 5%nat; Resume 6%nat]
           (client_with_external_document 3540000) = Some w'
     ∧ promises w' !! 6%nat = Some (Settled (Resolved (JBool false))))
  ∧ (∃ w', run no_numeric_string
           [Invoke M_externalDataExpired; Resume 5%nat; Resume 6%nat]
           (client_with_external_document 4000000) = Some w'
     ∧ promises w' !! 6%nat = Some (Settled (Resolved (JBool false)))).
Proof.
  repeat split.
  - pose proof (proj2 (externalDataExpired_result no_numeric_string
                         (client_with_external_document 0))
                  cached_external_document 3600000) as H.
    vm_compute in H. vm_compute. apply H; reflexivity.
  - pose proof (proj2 (externalDataExpired_result no_numeric_string
                         (client_with_external_document 3540000))
                  cached_external_document 3600000) as H.
    vm_compute in H. vm_compute. apply H; reflexivity.
  - pose proof (proj2 (externalDataExpired_result no_numeric_string
                         (client_with_external_document 4000000))
                  cached_external_document 3600000) as H.
    vm_compute in H. vm_compute. apply H; reflexivity.
Defined.

(** C6, on an instance whose client identifier is the empty string. *)
Lemma init_without_clientId_witness :
  step no_numeric_string (Invoke M_init) unconfigured_instance
  = Some (set_promises
            (promises unconfigured_instance
             ++ [Settled (Rejected (Error "Client Id is required for discovery"))])
            unconfigured_instance).
Proof.
  exact (proj1 (init_without_clientId no_numeric_string unconfigured_instance eq_refl)).
Defined.

(** C7, on an instance created over a cache that holds an initial document:
    the bootstrap started by the constructor completes from the cache. *)
Lemma init_from_cache_witness :
  ∃ w', run no_numeric_string
          [Invoke M_init; Resume 1%nat; Resume 2%nat; Resume 3%nat]
          instance_with_initial_document = Some w'
    ∧ promises w' !! 3%nat = Some (Settled (Resolved JUndefined))
    ∧ get_initialized w' = true
    ∧ log w' = [CacheGet "rc-initial"; Emit initialized initial_document]
    ∧ requests (log w') = []
    ∧ _initialPromise w' = None.
Proof.
  assert (H : _cache instance_with_initial_document
              !! _initialCacheId instance_with_initial_document
              = Some initial_document) by (vm_compute; reflexivity).
  exact (init_from_cache no_numeric_string instance_with_initial_document
           initial_document eq_refl eq_refl H eq_refl).
Defined.


(** C4, on the caller of [client_after_external_fetch]. *)
Lemma externalDataUpdated_per_caller_witness :
  ∃ u1 u2,
    step no_numeric_string (Resume 6%nat) client_after_external_fetch = Some u1
    ∧ log u1
      = log client_after_external_fetch
        ++ [CacheSet "rc-external"
              (JObj (<["expireTime" := JNum 3600000]> (external_document (JNum 3600))))]
    ∧ _cache u1 !! "rc-external"
      = Some (JObj (<["expireTime" := JNum 3600000]> (external_document (JNum 3600))))
    ∧ promises u1 !! 6%nat
      = Some (Suspended (K_fetchExternalData_2 (JObj (external_document (JNum 3600))))
                9%nat)
    ∧ run no_numeric_string [Resume 9%nat; Resume 6%nat] u1 = Some u2
    ∧ log u2 = log u1 ++ [Emit externalDataUpdated (JObj (external_document (JNum 3600)))]
    ∧ promises u2 !! 6%nat
      = Some (Settled (Resolved (JObj (external_document (JNum 3600)))))
    ∧ _externalFetchPromise u2 = None.
Proof.
  assert (Hc : promises client_after_external_fetch !! 6%nat
               = Some (Suspended K_fetchExternalData_1 5%nat))
    by (vm_compute; reflexivity).
  assert (Ha : promises client_after_external_fetch !! 5%nat
               = Some (Settled (Resolved (JObj (external_document (JNum 3600))))))
    by (vm_compute; reflexivity).
  assert (G : get_prop (JObj (external_document (JNum 3600))) "expiresIn"
              = inl (JNum 3600)) by (vm_compute; reflexivity).
  exact (proj1 (externalDataUpdated_per_caller no_numeric_string)
           client_after_external_fetch 6%nat 5%nat
           (JObj (external_document (JNum 3600))) (JNum 3600) Hc Ha G).
Defined.

(** C8, on a refresh of the client whose cache holds an external document,
    with no fetch in flight. *)
Lemma refreshExternalData_attempt_witness :
  ∃ w3, run no_numeric_string
          [Invoke M_refreshExternalData; Elapse 100; Fire 4%nat; Resume 5%nat;
           Resume 8%nat; Resume 5%nat]
          (client_with_external_document 0) = Some w3
    ∧ log w3
      = log (client_with_external_document 0)
        ++ [Delay 100 4%nat; CacheGet "rc-external";
            FetchGet (JStr "https://disc2.example.com") JNull
              (JObj {[ "skipDiscoveryCheck" := JBool true ]}) 9%nat]
    ∧ promises w3 !! 5%nat = Some (Suspended K__refreshExternalData_3 11%nat)
    ∧ promises w3 !! 11%nat = Some (Suspended K_fetchExternalData_1 10%nat).
Proof.
  assert (H1 : 0 ≤ 100) by lia.
  assert (H2 : _refreshDelayMs (client_with_external_document 0) ≤ 100)
    by (vm_compute; discriminate).
  destruct (refreshExternalData_attempt no_numeric_string
              (client_with_external_document 0) 100 eq_refl H1 H2)
    as (_ & _ & _ & H & _).
  assert (E1 : _cache (client_with_external_document 0)
               !! _externalCacheId (client_with_external_document 0)
               = Some (JObj cached_external_document)) by (vm_compute; reflexivity).
  assert (E2 : cached_external_document !! "discoveryApi"
               = Some (JObj (<["externalUri" := JStr "https://disc2.example.com"]>
                             {[ "initialUri" := JStr "https://discovery/initial" ]})))
    by (vm_compute; reflexivity).
  assert (E3 : (<["externalUri" := JStr "https://disc2.example.com"]>
                {[ "initialUri" := JStr "https://discovery/initial" ]}
                : gmap string jsval) !! "externalUri"
               = Some (JStr "https://disc2.example.com")) by (vm_compute; reflexivity).
  exact (proj1 (H _ _ _ E1 E2 E3) eq_refl).
Defined.

(** C2, evaluated.  The bootstrap of a client with an empty cache fails
    because the transport rejects the one request.  [init] has reset its cell
    but [fetchInitialData] has not: [_initialFetchPromise] still holds the
    rejected attempt.  The next call to [fetchInitialData()] joins it: no
    further request is made and the caller gets the old failure. *)
Lemma fetchInitialData_replays_failure :
  (∃ w', run no_numeric_string
           [Resume 1%nat; Resume 2%nat;
            Respond 4%nat (Rejected (Rejection "network down"));
            Resume 5%nat; Resume 6%nat; Resume 2%nat; Resume 3%nat]
           (client_without_cache 0) = Some w'
     ∧ promises w' !! 5%nat = Some (Settled (Rejected (Rejection "network down")))
     ∧ promises w' !! 6%nat = Some (Settled (Rejected (Rejection "network down")))
     ∧ promises w' !! 3%nat = Some (Settled (Rejected (Rejection "network down")))
     ∧ _initialPromise w' = None
     ∧ _initialFetchPromise w' = Some 5%nat
     ∧ length (requests (log w')) = 1%nat)
  ∧
  (∃ w', run no_numeric_string
           [Resume 1%nat; Resume 2%nat;
            Respond 4%nat (Rejected (Rejection "network down"));
            Resume 5%nat; Resume 6%nat; Resume 2%nat; Resume 3%nat;
            Invoke M_fetchInitialData; Resume 7%nat]
           (client_without_cache 0) = Some w'
     ∧ promises w' !! 7%nat = Some (Settled (Rejected (Rejection "network down")))
     ∧ _initialFetchPromise w' = Some 5%nat
     ∧ length (requests (log w')) = 1%nat).
Proof.
  split.
  - by_observation
      (fun w => (length (requests (log w)), _initialFetchPromise w,
                 _initialPromise w, promises w !! 3%nat,
                 promises w !! 6%nat, promises w !! 5%nat))
      (1%nat, Some 5%nat, @None promise,
       Some (Settled (Rejected (Rejection "network down"))),
       Some (Settled (Rejected (Rejection "network down"))),
       Some (Settled (Rejected (Rejection "network down")))).
  - by_observation
      (fun w => (length (requests (log w)), _initialFetchPromise w,
                 promises w !! 7%nat))
      (1%nat, Some 5%nat, Some (Settled (Rejected (Rejection "network down")))).
Qed.

(** C4, refuted.  Two callers share one external fetch: the transport gets
    one request and answers it, and the event is emitted twice, once by each
    caller (each of them has written the document to the cache before). *)
Lemma externalDataUpdated_emitted_per_caller :
  ∃ w',
    run no_numeric_string
      [Invoke (M_fetchExternalData "https://discovery/external");
       Invoke (M_fetchExternalData "https://discovery/external");
       Respond 4%nat (Resolved external_response);
       Resume 5%nat; Resume 5%nat;
       Resume 6%nat; Resume 7%nat; Resume 10%nat; Resume 12%nat;
       Resume 6%nat; Resume 7%nat]
      (client_without_cache 0) = Some w'
    ∧ length (requests (log w')) = 1%nat
    ∧ promises w' !! 5%nat
      = Some (Settled (Resolved (JObj (external_document (JNum 3600)))))
    ∧ promises w' !! 6%nat
      = Some (Settled (Resolved (JObj (external_document (JNum 3600)))))
    ∧ promises w' !! 7%nat
      = Some (Settled (Resolved (JObj (external_document (JNum 3600)))))
    ∧ emitted externalDataUpdated (log w')
      = [JObj (external_document (JNum 3600)); JObj (external_document (JNum 3600))].
Proof.
  by_observation
    (fun w => (emitted externalDataUpdated (log w), promises w !! 7%nat,
               promises w !! 6%nat, promises w !! 5%nat,
               length (requests (log w))))
    ([JObj (external_document (JNum 3600)); JObj (external_document (JNum 3600))],
     Some (Settled (Resolved (JObj (external_document (JNum 3600))))),
     Some (Settled (Resolved (JObj (external_document (JNum 3600))))),
     Some (Settled (Resolved (JObj (external_document (JNum 3600))))),
     1%nat).
Qed.

(** C8, refuted.  The cache holds an external document whose [externalUri]
    is [https://disc2.example.com].  A refresh that starts while a call of
    [fetchExternalData] for another address is in flight waits, reads the
    document, delegates to [fetchExternalData] and joins the fetch in
    flight: the refresh completes and the only request ever made is the one
    for the other address. *)
Lemma refresh_joins_fetch_in_flight :
  ∃ w',
    run no_numeric_string
      [Invoke (M_fetchExternalData "https://other.example.com");
       Invoke M_refreshExternalData;
       Elapse 100; Fire 7%nat; Resume 8%nat; Resume 11%nat; Resume 8%nat;
       Respond 4%nat (Resolved external_response);
       Resume 5%nat; Resume 5%nat; Resume 6%nat; Resume 12%nat;
       Resume 15%nat; Resume 17%nat; Resume 6%nat; Resume 12%nat;
       Resume 8%nat; Resume 9%nat]
      (client_with_external_document 0) = Some w'
    ∧ promises w' !! 9%nat = Some (Settled (Resolved JUndefined))
    ∧ requests (log w')
      = [FetchGet (JStr "https://other.example.com") JNull
           (JObj {[ "skipDiscoveryCheck" := JBool true ]}) 4%nat].
Proof.
  by_observation
    (fun w => (requests (log w), promises w !! 9%nat))
    ([FetchGet (JStr "https://other.example.com") JNull
        (JObj {[ "skipDiscoveryCheck" := JBool true ]}) 4%nat],
     Some (Settled (Resolved JUndefined))).
Qed.

(** ** The further properties, evaluated *)

(** X3, on the client of [client_after_external_fetch]. *)
Lemma cache_isolation_witness :
  _initialCacheId client_after_external_fetch
  = cacheId (options ∅ (JStr "my-app")) +:+ "-initial"
  ∧ _externalCacheId client_after_external_fetch
    = cacheId (options ∅ (JStr "my-app")) +:+ "-external"
  ∧ _initialCacheId client_after_external_fetch
    ≠ _externalCacheId client_after_external_fetch
  ∧ ∀ k, k ≠ cacheId (options ∅ (JStr "my-app")) +:+ "-initial" →
         k ≠ cacheId (options ∅ (JStr "my-app")) +:+ "-external" →
      _cache client_after_external_fetch !! k = cache (options ∅ (JStr "my-app")) !! k.
Proof.
  assert (H : run no_numeric_string
                [Invoke (M_fetchExternalData "https://discovery/external");
                 Respond 4%nat (Resolved external_response);
                 Resume 5%nat; Resume 5%nat]
                (constructor (options ∅ (JStr "my-app")) 0)
              = Some client_after_external_fetch) by (vm_compute; reflexivity).
  exact (cache_isolation no_numeric_string _ _ _ _ H).
Defined.

(** X4, on the same client. *)
Lemma only_discovery_requests_witness :
  Forall (discovery_request (new_instance (options ∅ (JStr "my-app")) 0))
    (log client_after_external_fetch).
Proof.
  assert (H : run no_numeric_string
                [Invoke (M_fetchExternalData "https://discovery/external");
                 Respond 4%nat (Resolved external_response);
                 Resume 5%nat; Resume 5%nat]
                (constructor (options ∅ (JStr "my-app")) 0)
              = Some client_after_external_fetch) by (vm_compute; reflexivity).
  exact (only_discovery_requests no_numeric_string _ _ _ _ H).
Defined.

(** X2, on the same client. *)
Lemma configuration_is_fixed_witness :
  _initialEndpoint client_after_external_fetch
  = initialEndpoint (options ∅ (JStr "my-app"))
  ∧ _clientId client_after_external_fetch = clientId (options ∅ (JStr "my-app"))
  ∧ _refreshHandicapMs client_after_external_fetch
    = default DEFAULT_RENEW_HANDICAP_MS (refreshHandicapMs (options ∅ (JStr "my-app")))
  ∧ _refreshDelayMs client_after_external_fetch
    = default 100 (refreshDelayMs (options ∅ (JStr "my-app"))).
Proof.
  assert (H : run no_numeric_string
                [Invoke (M_fetchExternalData "https://discovery/external");
                 Respond 4%nat (Resolved external_response);
                 Resume 5%nat; Resume 5%nat]
                (constructor (options ∅ (JStr "my-app")) 0)
              = Some client_after_external_fetch) by (vm_compute; reflexivity).
  exact (configuration_is_fixed no_numeric_string _ _ _ _ H).
Defined.

(** X6, on an instance over an empty cache. *)
Lemma bootstrap_from_network_witness :
  ∃ w', run no_numeric_string
          [Invoke M_init; Resume 1%nat; Resume 2%nat;
           Respond 4%nat (Resolved (JResponse ∅ (inl initial_document) ∅));
           Resume 5%nat; Resume 5%nat; Resume 9%nat; Resume 5%nat;
           Resume 6%nat; Resume 2%nat; Resume 3%nat] instance_without_cache = Some w'
    ∧ log w' = log instance_without_cache
               ++ [CacheGet (_initialCacheId instance_without_cache);
                   FetchGet (JStr (_initialEndpoint instance_without_cache))
                     (JObj {[ "clientId" := _clientId instance_without_cache ]})
                     (JObj {[ "skipAuthCheck" := JBool true ]}) 4%nat;
                   CacheSet (_initialCacheId instance_without_cache) initial_document;
                   Emit initialized initial_document]
    ∧ _cache w' = <[_initialCacheId instance_without_cache := initial_document]>
                    (_cache instance_without_cache)
    ∧ get_initialized w' = true
    ∧ promises w' !! 3%nat = Some (Settled (Resolved JUndefined))
    ∧ _initialPromise w' = None
    ∧ _initialFetchPromise w' = None.
Proof.
  assert (F : truthy (default JUndefined
                (_cache instance_without_cache !! _initialCacheId instance_without_cache))
              = false) by (vm_compute; reflexivity).
  exact (bootstrap_from_network no_numeric_string instance_without_cache ∅
           initial_document ∅ eq_refl eq_refl eq_refl F).
Defined.

(** X9, on a response that carries the tag [eu-1]. *)
Lemma fetchExternalData_success_witness :
  ∃ w', run no_numeric_string
          [Invoke (M_fetchExternalData "https://discovery/external");
           Respond 4%nat
             (Resolved (JResponse ∅ (inl (JObj (external_document (JNum 3600))))
                          {[ "discovery-tag" := "eu-1" ]}));
           Resume 5%nat; Resume 5%nat; Resume 6%nat; Resume 9%nat; Resume 6%nat]
          (client_without_cache 0) = Some w'
    ∧ log w' = log (client_without_cache 0)
               ++ [FetchGet (JStr "https://discovery/external") JNull
                     (JObj {[ "skipDiscoveryCheck" := JBool true ]}) 4%nat;
                   CacheSet (_externalCacheId (client_without_cache 0))
                     (stored_external no_numeric_string (now (client_without_cache 0))
                        (JObj (tagged {[ "discovery-tag" := "eu-1" ]}
                                 (external_document (JNum 3600)))));
                   Emit externalDataUpdated
                     (JObj (tagged {[ "discovery-tag" := "eu-1" ]}
                              (external_document (JNum 3600))))]
    ∧ _cache w' !! _externalCacheId (client_without_cache 0)
      = Some (stored_external no_numeric_string (now (client_without_cache 0))
                (JObj (tagged {[ "discovery-tag" := "eu-1" ]}
                         (external_document (JNum 3600)))))
    ∧ promises w' !! 6%nat
      = Some (Settled (Resolved (JObj (tagged {[ "discovery-tag" := "eu-1" ]}
                                         (external_document (JNum 3600))))))
    ∧ _externalFetchPromise w' = None.
Proof.
  exact (fetchExternalData_success no_numeric_string (client_without_cache 0)
           "https://discovery/external" ∅ (external_document (JNum 3600))
           {[ "discovery-tag" := "eu-1" ]} eq_refl).
Defined.

(** X10, on a request the transport rejects. *)
Lemma fetchExternalData_failure_witness :
  ∃ w' w'',
    run no_numeric_string
      (Invoke (M_fetchExternalData "https://discovery/external")
       :: [Respond 4%nat (Rejected (Rejection "network down")); Resume 5%nat]
          ++ [Resume 6%nat])
      (client_without_cache 0) = Some w'
    ∧ promises w' !! 6%nat = Some (Settled (Rejected (Rejection "network down")))
    ∧ _externalFetchPromise w' = None
    ∧ _cache w' = _cache (client_without_cache 0)
    ∧ log w' = log (client_without_cache 0)
               ++ [FetchGet (JStr "https://discovery/external") JNull
                     (JObj {[ "skipDiscoveryCheck" := JBool true ]}) 4%nat]
    ∧ step no_numeric_string (Invoke (M_fetchExternalData "https://disc2.example.com")) w'
      = Some w''
    ∧ log w'' = log w'
                ++ [FetchGet (JStr "https://disc2.example.com") JNull
                      (JObj {[ "skipDiscoveryCheck" := JBool true ]}) (new_promise w' 0)].
Proof.
  exact (fetchExternalData_failure no_numeric_string (client_without_cache 0)
           "https://discovery/external" "https://disc2.example.com"
           (Rejection "network down") ∅ ∅ _ eq_refl (or_introl eq_refl)).
Defined.

(** X8, on the call of [init] made by [client_before_init_returns]. *)
Lemma callers_reset_their_cell_witness :
  ∃ u', step no_numeric_string (Resume 3%nat) client_before_init_returns = Some u'
    ∧ _initialPromise u' = None
    ∧ promises u' !! 3%nat = Some (Settled (Resolved JUndefined))
    ∧ log u' = log client_before_init_returns
    ∧ _cache u' = _cache client_before_init_returns.
Proof.
  assert (Ha : promises client_before_init_returns !! 2%nat
               = Some (Settled (Resolved JUndefined))) by (vm_compute; reflexivity).
  assert (Hc : promises client_before_init_returns !! 3%nat
               = Some (Suspended K_init 2%nat)) by (vm_compute; reflexivity).
  exact (proj1 (callers_reset_their_cell no_numeric_string client_before_init_returns
                  3%nat 2%nat (Resolved JUndefined) Ha) Hc).
Defined.

(** X5, on two calls of [init] in a row. *)
Lemma init_single_flight_witness :
  ∃ w', run no_numeric_string [Invoke M_init; Invoke M_init]
          instance_with_initial_document = Some w'
    ∧ log w' = log instance_with_initial_document
               ++ [CacheGet (_initialCacheId instance_with_initial_document)]
    ∧ _initialPromise w' = Some 2%nat
    ∧ promises w' !! 2%nat = Some (Suspended K__init_1 1%nat)
    ∧ (∀ i, (i < 2)%nat →
         promises w' !! new_promise instance_with_initial_document (3 + i)
         = Some (Suspended K_init 2%nat))
    ∧ length (promises w') = 5%nat.
Proof.
  exact (proj1 (init_single_flight no_numeric_string instance_with_initial_document
                  0%nat eq_refl) eq_refl).
Defined.

(** X13, on an instance whose cache holds an initial document. *)
Lemma removeInitialData_then_init_witness :
  ∃ w', run no_numeric_string
          [Invoke M_removeInitialData; Resume 1%nat;
           Invoke M_init; Resume 3%nat; Resume 4%nat]
          instance_with_initial_document = Some w'
    ∧ _cache w' = delete (_initialCacheId instance_with_initial_document)
                    (_cache instance_with_initial_document)
    ∧ log w' = log instance_with_initial_document
               ++ [CacheRemove (_initialCacheId instance_with_initial_document);
                   CacheGet (_initialCacheId instance_with_initial_document);
                   FetchGet (JStr (_initialEndpoint instance_with_initial_document))
                     (JObj {[ "clientId" := _clientId instance_with_initial_document ]})
                     (JObj {[ "skipAuthCheck" := JBool true ]}) 6%nat]
    ∧ get_initialized w' = get_initialized instance_with_initial_document.
Proof.
  exact (removeInitialData_then_init no_numeric_string instance_with_initial_document
           eq_refl eq_refl eq_refl).
Defined.

(** X7, on the client whose bootstrap has failed. *)
Lemma init_replays_failed_fetch_witness :
  ∃ u', run no_numeric_string
          [Invoke M_init; Resume (new_promise client_after_failed_bootstrap 1);
           Resume (new_promise client_after_failed_bootstrap 2);
           Resume (new_promise client_after_failed_bootstrap 4);
           Resume (new_promise client_after_failed_bootstrap 2);
           Resume (new_promise client_after_failed_bootstrap 3)]
          client_after_failed_bootstrap = Some u'
    ∧ promises u' !! new_promise client_after_failed_bootstrap 3
      = Some (Settled (Rejected (Rejection "network down")))
    ∧ log u' = log client_after_failed_bootstrap
               ++ [CacheGet (_initialCacheId client_after_failed_bootstrap)]
    ∧ get_initialized u' = get_initialized client_after_failed_bootstrap
    ∧ _initialPromise u' = None
    ∧ _initialFetchPromise u' = Some 5%nat.
Proof.
  assert (H1 : truthy (_clientId client_after_failed_bootstrap) = true)
    by (vm_compute; reflexivity).
  assert (H2 : _initialPromise client_after_failed_bootstrap = None)
    by (vm_compute; reflexivity).
  assert (H3 : _initialFetchPromise client_after_failed_bootstrap = Some 5%nat)
    by (vm_compute; reflexivity).
  assert (H4 : promises client_after_failed_bootstrap !! 5%nat
               = Some (Settled (Rejected (Rejection "network down"))))
    by (vm_compute; reflexivity).
  assert (H5 : truthy (default JUndefined
                 (_cache client_after_failed_bootstrap
                  !! _initialCacheId client_after_failed_bootstrap)) = false)
    by (vm_compute; reflexivity).
  exact (init_replays_failed_fetch no_numeric_string client_after_failed_bootstrap
           5%nat (Rejection "network down") H1 H2 H3 H4 H5).
Defined.

(** X15, on the document stored at time 0 for an hour, asked about at
    time 1 000 000. *)
Lemma stored_document_lifetime_witness :
  ∃ u', run no_numeric_string
          [Invoke M_externalDataExpired; Resume 5%nat; Resume 6%nat]
          (client_with_external_document 1000000) = Some u'
    ∧ promises u' !! 6%nat
      = Some (Settled (Resolved
                (JBool (now (client_with_external_document 1000000) - 0
                        <? 3600 * 1000
                           - _refreshHandicapMs (client_with_external_document 1000000))))).
Proof.
  assert (Hc : _cache (client_with_external_document 1000000)
               !! _externalCacheId (client_with_external_document 1000000)
               = Some (stored_external no_numeric_string 0
                         (JObj (external_document (JNum 3600)))))
    by (vm_compute; reflexivity).
  assert (Hn : external_document (JNum 3600) !! "expiresIn" = Some (JNum 3600))
    by (vm_compute; reflexivity).
  assert (Hz : 3600 ≠ 0) by discriminate.
  exact (proj1 (stored_document_lifetime no_numeric_string
                  (client_with_external_document 1000000)
                  (external_document (JNum 3600)) 0 Hc) 3600 Hn Hz).
Defined.

(** X11, on a refresh of the client whose cache holds an external
    document. *)
Lemma refreshExternalData_success_witness :
  ∃ w', run no_numeric_string
          [Invoke M_refreshExternalData; Elapse 100; Fire 4%nat;
           Resume 5%nat; Resume 8%nat; Resume 5%nat;
           Respond 9%nat
             (Resolved (JResponse ∅ (inl (JObj (external_document (JNum 7200)))) ∅));
           Resume 10%nat; Resume 10%nat;
           Resume 11%nat; Resume 14%nat; Resume 11%nat;
           Resume 5%nat; Resume 6%nat] (client_with_external_document 0) = Some w'
    ∧ log w' = log (client_with_external_document 0)
               ++ [Delay (_refreshDelayMs (client_with_external_document 0)) 4%nat;
                   CacheGet (_externalCacheId (client_with_external_document 0));
                   FetchGet (JStr "https://disc2.example.com") JNull
                     (JObj {[ "skipDiscoveryCheck" := JBool true ]}) 9%nat;
                   CacheSet (_externalCacheId (client_with_external_document 0))
                     (stored_external no_numeric_string
                        (now (client_with_external_document 0) + 100)
                        (JObj (external_document (JNum 7200))));
                   Emit externalDataUpdated (JObj (external_document (JNum 7200)))]
    ∧ _cache w'
      = <[_externalCacheId (client_with_external_document 0)
          := stored_external no_numeric_string
               (now (client_with_external_document 0) + 100)
               (JObj (external_document (JNum 7200)))]>
          (_cache (client_with_external_document 0))
    ∧ promises w' !! 6%nat = Some (Settled (Resolved JUndefined))
    ∧ _externalRefreshPromise w' = None ∧ _externalFetchPromise w' = None.
Proof.
  assert (H1 : 0 ≤ 100) by lia.
  assert (H2 : _refreshDelayMs (client_with_external_document 0) ≤ 100)
    by (vm_compute; discriminate).
  assert (E1 : _cache (client_with_external_document 0)
               !! _externalCacheId (client_with_external_document 0)
               = Some (JObj cached_external_document)) by (vm_compute; reflexivity).
  assert (E2 : cached_external_document !! "discoveryApi"
               = Some (JObj (<["externalUri" := JStr "https://disc2.example.com"]>
                             {[ "initialUri" := JStr "https://discovery/initial" ]})))
    by (vm_compute; reflexivity).
  assert (E3 : (<["externalUri" := JStr "https://disc2.example.com"]>
                {[ "initialUri" := JStr "https://discovery/initial" ]}
                : gmap string jsval) !! "externalUri"
               = Some (JStr "https://disc2.example.com")) by (vm_compute; reflexivity).
  assert (E4 : (∅ : gmap string string) !! "discovery-tag" = None)
    by (vm_compute; reflexivity).
  exact (refreshExternalData_success no_numeric_string (client_with_external_document 0)
           100 _ _ ∅ (external_document (JNum 7200)) _ ∅ eq_refl eq_refl H1 H2 E1 E2 E3 E4).
Defined.
